(** * Xero MCP server: a shallow embedding of the router, the REST client
      and the HTTP host, with the properties of its specification.

    The development follows the TypeScript sources:
    - [Js]       the JavaScript values the code handles (JSON, [undefined],
                 truthiness, string conversion, thrown errors);
    - [Runtime]  the process-wide mutable state (navigation state, cached
                 client, [process.env], the outbound request log) and the
                 state-and-exception monad the asynchronous code runs in;
    - [Client]   src/utils/client.ts ([XeroClient], [getClient], [resetClient]);
    - [Domains]  src/domains/*.ts (tool tables and handlers);
    - [Server]   src/index.ts (ListTools, CallTool, the HTTP request listener);
    - [Spec]     the vocabulary of the specification and concrete scenarios.

    One inbound request is handled at a time (no interleaving of awaits). *)

From stdpp Require Import base strings gmap pretty list.

Set Warnings "-register-all".

(** ** JavaScript values *)

Module Js.

(** A decoded JSON value. A number is kept as its canonical decimal
    rendering, the text [String(x)] prints ([-0] prints as [0]); the fields
    of an object are listed in property enumeration order. *)
Inductive json : Type :=
| JNull
| JBool (b : bool)
| JNum (canon : string)
| JStr (s : string)
| JArr (items : list json)
| JObj (fields : list (string * json)).

(** A JavaScript value of the fragment the code manipulates: [None] is
    [undefined]. *)
Definition value : Type := option json.

Definition null : value := Some JNull.

(** The double quote character, used inside template literals. *)
Definition dquote : string := String (Ascii.ascii_of_nat 34) EmptyString.

(** [v !== undefined]. *)
Definition defined (v : value) : bool :=
  match v with
  | None => false
  | Some _ => true
  end.

(** ToBoolean. *)
Definition truthy (v : value) : bool :=
  match v with
  | None => false
  | Some JNull => false
  | Some (JBool b) => b
  | Some (JNum c) => negb (String.eqb c "0")
  | Some (JStr s) => negb (String.eqb s EmptyString)
  | Some (JArr _) => true
  | Some (JObj _) => true
  end.

(** ToBoolean of a [string | undefined], as in [!accessToken]. *)
Definition truthy_string (v : option string) : bool :=
  match v with
  | None => false
  | Some s => negb (String.eqb s EmptyString)
  end.

(** ToString, as applied by [String(x)], template literals and
    [URLSearchParams]. Array elements that are [null] print as the empty
    string ([Array.prototype.join]). *)
Fixpoint to_string (v : json) : string :=
  match v with
  | JNull => "null"
  | JBool true => "true"
  | JBool false => "false"
  | JNum c => c
  | JStr s => s
  | JArr l =>
      (fix join (l : list json) : string :=
         match l with
         | [] => EmptyString
         | x :: r =>
             let e := match x with JNull => EmptyString | _ => to_string x end in
             match r with
             | [] => e
             | _ :: _ => e +:+ "," +:+ join r
             end
         end) l
  | JObj _ => "[object Object]"
  end.

Definition to_string_value (v : value) : string :=
  match v with
  | None => "undefined"
  | Some j => to_string j
  end.

(** Reading an own property of an object: [o[k]], [undefined] when absent. *)
Fixpoint get {A : Type} (k : string) (fields : list (string * A)) : option A :=
  match fields with
  | [] => None
  | (k', v) :: rest => if String.eqb k' k then Some v else get k rest
  end.

(** Writing a property: an existing key keeps its place, a new key is
    appended ([{...params, page: p}], [o.k = v]). *)
Fixpoint set {A : Type} (k : string) (v : A) (fields : list (string * A))
  : list (string * A) :=
  match fields with
  | [] => [(k, v)]
  | (k', v') :: rest =>
      if String.eqb k' k then (k, v) :: rest else (k', v') :: set k v rest
  end.

(** An object literal as [JSON.stringify] serialises it: a field whose value
    is [undefined] is left out. *)
Definition object (fields : list (string * value)) : json :=
  JObj ((fix keep (fs : list (string * value)) : list (string * json) :=
           match fs with
           | [] => []
           | (k, Some v) :: rest => (k, v) :: keep rest
           | (_, None) :: rest => keep rest
           end) fields).

(** [vs.find((v) => Array.isArray(v))]. *)
Fixpoint find_array (vs : list json) : option (list json) :=
  match vs with
  | [] => None
  | JArr l :: _ => Some l
  | _ :: rest => find_array rest
  end.

(** A thrown value. Everything the code throws or lets escape is an
    [Error] object; the constructor records its class. *)
Inductive exn : Type :=
| Error (message : string)
| TypeError (message : string)
| SyntaxError (message : string).

Definition message (e : exn) : string :=
  match e with
  | Error m => m
  | TypeError m => m
  | SyntaxError m => m
  end.

(** The result of evaluating an expression or awaiting a promise. *)
Inductive outcome (A : Type) : Type :=
| Returns (a : A)
| Throws (e : exn).
Arguments Returns {A} a.
Arguments Throws {A} e.

End Js.

Import Js.

(** ** Process state and effects *)

Module Runtime.

(** An outbound call as handed to [fetch]: [url] is the address before the
    query string, [params] the entries of the query string (none when the
    caller gave no or empty parameters), [body] the value given to
    [JSON.stringify], absent when the caller passed [undefined]. *)
Record http_request : Type := {
  method : string;
  url : string;
  params : list (string * string);
  headers : list (string * string);
  body : option json;
}.

(** What [response.json()] resolves to: the decoded body, or the
    [SyntaxError] the parser raises on text that is not JSON. *)
Inductive decoded : Type :=
| Parsed (v : json)
| Malformed (message : string).

(** The [Response] of a completed call: [text] is what [response.text()]
    resolves to, [json_body] what [response.json()] resolves to. *)
Record http_response : Type := {
  status : N;
  text : string;
  json_body : decoded;
}.

(** [response.ok]: the status is in the range 200-299. *)
Definition ok (r : http_response) : bool :=
  (200 <=? status r)%N && (status r <=? 299)%N.

(** [fetch] resolves to a response or rejects (network failure). *)
Inductive fetch_result : Type :=
| Response (r : http_response)
| Rejected (e : exn).

(** What [items && items.length > 0], [allItems.push(...items)] and
    [items.length >= XERO_PAGE_SIZE] observe of a page's [items]:
    nothing to add, [spread] to add with a measured [length], or an error
    raised while looking. *)
Inductive items_view : Type :=
| NoItems
| Items (spread : list json) (length : nat)
| Fails (e : exn).

(** The platform underneath the code. [fetch] is the transport (the remote
    API seen through the network), which answers a call by what the call
    says. [dynamic_items k body] is JavaScript's
    reading of [body[k]] as a page's items in the cases that leave the
    declared types and are not spelled out in [Client.named_items]: a body
    that is not a plain object, an own field holding a string or an object,
    a key inherited from [Object.prototype]. Nothing is assumed of either. *)
Record platform : Type := {
  fetch : http_request -> fetch_result;
  dynamic_items : string -> json -> items_view;
}.

Record XeroClientConfig : Type := {
  accessToken : string;
  tenantId : string;
}.

(** An instance of class [XeroClient]: its private [config]. *)
Record XeroClient : Type := {
  config : XeroClientConfig;
}.

(** [interface ServerState]. The declared type of the field is
    [Domain | null]; at run time it holds whatever was assigned to it. *)
Record ServerState : Type := {
  currentDomain : value;
}.

(** The mutable state of the process: the router's [state], the module-level
    [_client] of utils/client.ts, [process.env], and the calls handed to
    [fetch] so far (oldest first). *)
Record world : Type := {
  state : ServerState;
  _client : option XeroClient;
  env : gmap string string;
  requests : list http_request;
}.

Definition set_state (s : ServerState) (w : world) : world :=
  {| state := s; _client := _client w; env := env w; requests := requests w |}.

Definition set_client (c : option XeroClient) (w : world) : world :=
  {| state := state w; _client := c; env := env w; requests := requests w |}.

Definition set_env (e : gmap string string) (w : world) : world :=
  {| state := state w; _client := _client w; env := e; requests := requests w |}.

Definition log_request (r : http_request) (w : world) : world :=
  {| state := state w; _client := _client w; env := env w;
     requests := requests w ++ [r] |}.

(** Computations over the process state that return or throw. *)
Definition M (A : Type) : Type := world -> outcome A * world.

Definition ret {A : Type} (a : A) : M A := fun w => (Returns a, w).

Definition throw {A : Type} (e : exn) : M A := fun w => (Throws e, w).

Definition bind {A B : Type} (m : M A) (k : A -> M B) : M B :=
  fun w =>
    match m w with
    | (Returns a, w') => k a w'
    | (Throws e, w') => (Throws e, w')
    end.

(** [try { m } catch (error) { h error }]: the effects of [m] up to the
    throw stay in place. *)
Definition try_catch {A : Type} (m : M A) (h : exn -> M A) : M A :=
  fun w =>
    match m w with
    | (Returns a, w') => (Returns a, w')
    | (Throws e, w') => h e w'
    end.

Definition modify (f : world -> world) : M unit := fun w => (Returns tt, f w).

End Runtime.

Import Runtime.

Declare Scope js_scope.
Delimit Scope js_scope with js.
Notation "x <- m ;; k" := (bind m (fun x => k))
  (at level 100, m at next level, right associativity) : js_scope.
Notation "m ;; k" := (bind m (fun _ => k))
  (at level 100, right associativity) : js_scope.

(** ** src/utils/client.ts *)

Module Client.

Definition XERO_API_BASE : string := "https://api.xero.com/api.xro/2.0".
Definition XERO_PAGE_SIZE : nat := 100.

(** The members of [Object.prototype], which a property read on a plain
    object reaches when the object has no own field of that name. *)
Definition inherited (k : string) : bool :=
  bool_decide (k ∈ ["constructor"; "toString"; "valueOf"; "toLocaleString";
                    "hasOwnProperty"; "isPrototypeOf"; "propertyIsEnumerable";
                    "__proto__"; "__defineGetter__"; "__defineSetter__";
                    "__lookupGetter__"; "__lookupSetter__"]).

(** An array as page items: [items.length > 0] fails on the empty array. *)
Definition array_items (l : list json) : items_view :=
  match l with
  | [] => NoItems
  | _ :: _ => Items l (length l)
  end.

Section WithPlatform.
Context (P : platform).

(** [response[responseKey] as unknown[]] under
    [items && items.length > 0]. Reading a property of [null] throws;
    [null], booleans and numbers are falsy or have no [length]. *)
Definition named_items (k : string) (response : json) : items_view :=
  match response with
  | JNull =>
      Fails (TypeError ("Cannot read properties of null (reading '" +:+ k +:+ "')"))
  | JObj fields =>
      match Js.get k fields with
      | Some (JArr l) => array_items l
      | Some JNull | Some (JBool _) | Some (JNum _) => NoItems
      | Some (JStr _) | Some (JObj _) => dynamic_items P k response
      | None => if inherited k then dynamic_items P k response else NoItems
      end
  | _ => dynamic_items P k response
  end.

(** [Object.values(response).find((v) => Array.isArray(v))] under the same
    test. [Object.values] throws on [null], lists the elements of an array
    and the characters of a string, and is empty on numbers and booleans. *)
Definition first_array_items (response : json) : items_view :=
  match response with
  | JNull => Fails (TypeError "Cannot convert undefined or null to object")
  | JObj fields =>
      match find_array (map snd fields) with
      | Some l => array_items l
      | None => NoItems
      end
  | JArr elements =>
      match find_array elements with
      | Some l => array_items l
      | None => NoItems
      end
  | _ => NoItems
  end.

(** [const items = responseKey ? response[responseKey] : Object.values(...)]. *)
Definition page_items (responseKey : option string) (response : json)
  : items_view :=
  match responseKey with
  | Some k =>
      if truthy_string (Some k) then named_items k response
      else first_array_items response
  | None => first_array_items response
  end.

Definition request_headers (this : XeroClient) : list (string * string) :=
  [("Authorization", "Bearer " +:+ accessToken (config this));
   ("xero-tenant-id", tenantId (config this));
   ("Content-Type", "application/json");
   ("Accept", "application/json")].

(** The argument of [fetch] that [request] builds. *)
Definition build_request (this : XeroClient) (method path : string)
    (params : option (list (string * string))) (body : value) : http_request :=
  {| method := method;
     url := XERO_API_BASE +:+ "/" +:+ path;
     params := default [] params;
     headers := request_headers this;
     body := body |}.

(** The error thrown on a response that is not [ok]. *)
Definition api_error (method path : string) (r : http_response) : exn :=
  Error ("Xero API error " +:+ method +:+ " /" +:+ path +:+ " ("
         +:+ pretty (status r) +:+ "): " +:+ text r).

(** What [request] does with the settled [fetch]. *)
Definition settle (method path : string) (f : fetch_result) : outcome json :=
  match f with
  | Rejected e => Throws e
  | Response r =>
      if negb (ok r) then Throws (api_error method path r)
      else if (status r =? 204)%N then Returns JNull
      else match json_body r with
           | Parsed v => Returns v
           | Malformed m => Throws (SyntaxError m)
           end
  end.

(** [private async request(method, path, params?, body?)]. *)
Definition request (this : XeroClient) (method path : string)
    (params : option (list (string * string))) (body : value) : M json :=
  fun w =>
    let req := build_request this method path params body in
    (settle method path (fetch P req), log_request req w).

Definition get (this : XeroClient) (path : string)
    (params : option (list (string * string))) : M json :=
  request this "GET" path params None.

Definition post (this : XeroClient) (path : string) (body : value) : M json :=
  request this "POST" path None body.

Definition put (this : XeroClient) (path : string) (body : value) : M json :=
  request this "PUT" path None body.

Definition delete (this : XeroClient) (path : string) : M json :=
  request this "DELETE" path None None.

(** [{ ...params, page: String(page) }]. *)
Definition with_page (params : option (list (string * string))) (page : nat)
  : list (string * string) :=
  Js.set "page" (pretty page) (default [] params).

(** The [while (hasMore)] loop of [getPaginated], entered with the current
    [page] and [allItems]. [fuel] bounds the number of iterations; [None]
    means the loop is still running after that many. *)
Fixpoint getPaginated_loop (this : XeroClient) (path : string)
    (params : option (list (string * string))) (responseKey : option string)
    (fuel : nat) (page : nat) (allItems : list json) (w : world)
  : option (outcome (list json) * world) :=
  match fuel with
  | O => None
  | S fuel' =>
      match get this path (Some (with_page params page)) w with
      | (Throws e, w') => Some (Throws e, w')
      | (Returns response, w') =>
          match page_items responseKey response with
          | Fails e => Some (Throws e, w')
          | NoItems => Some (Returns allItems, w')
          | Items items n =>
              if (XERO_PAGE_SIZE <=? n)%nat
              then getPaginated_loop this path params responseKey fuel'
                     (S page) (allItems ++ items) w'
              else Some (Returns (allItems ++ items), w')
          end
      end
  end.

(** [async getPaginated(path, params?, responseKey?)]. *)
Definition getPaginated (this : XeroClient) (path : string)
    (params : option (list (string * string))) (responseKey : option string)
    (fuel : nat) (w : world) : option (outcome (list json) * world) :=
  getPaginated_loop this path params responseKey fuel 1 [] w.

End WithPlatform.

(** The error [getClient] throws when a credential is not set. *)
Definition credentials_error : exn :=
  Error ("XERO_ACCESS_TOKEN and XERO_TENANT_ID environment variables are required. "
         +:+ "In gateway mode, these are set from request headers automatically.").

(** [export function getClient()]. *)
Definition getClient : M XeroClient :=
  fun w =>
    match _client w with
    | Some c => (Returns c, w)
    | None =>
        let accessToken := env w !! "XERO_ACCESS_TOKEN" in
        let tenantId := env w !! "XERO_TENANT_ID" in
        if negb (truthy_string accessToken) || negb (truthy_string tenantId)
        then (Throws credentials_error, w)
        else
          let c := {| config := {| accessToken := default EmptyString accessToken;
                                   tenantId := default EmptyString tenantId |} |} in
          (Returns c, set_client (Some c) w)
    end.

(** [export function resetClient()]. *)
Definition resetClient : M unit := modify (set_client None).

End Client.

(** ** src/domains/*.ts *)

Module Domains.

(** A tool descriptor, identified by its [name]; the description and the
    input schema are static text the router never reads. *)
Record Tool : Type := {
  name : string;
}.

(** The [text] of a content item: a literal string, or
    [JSON.stringify(v, null, 2)] of a value. *)
Inductive rendered : Type :=
| Text (s : string)
| JsonText (v : json).

(** A tool result [{ content: [{ type: "text", text }], isError? }]; an
    absent [isError] reads as [false]. *)
Record ToolResult : Type := {
  content : list rendered;
  isError : bool;
}.

Definition success (response : json) : ToolResult :=
  {| content := [JsonText response]; isError := false |}.

Definition failure (message : string) : ToolResult :=
  {| content := [Text message]; isError := true |}.

Definition contactTools : list Tool :=
  [ {| name := "xero_contacts_list" |};
    {| name := "xero_contacts_get" |};
    {| name := "xero_contacts_create" |};
    {| name := "xero_contacts_search" |} ].

Definition invoiceTools : list Tool :=
  [ {| name := "xero_invoices_list" |};
    {| name := "xero_invoices_get" |};
    {| name := "xero_invoices_create" |};
    {| name := "xero_invoices_update_status" |} ].

Definition paymentTools : list Tool :=
  [ {| name := "xero_payments_list" |};
    {| name := "xero_payments_get" |};
    {| name := "xero_payments_create" |} ].

Definition accountTools : list Tool :=
  [ {| name := "xero_accounts_list" |};
    {| name := "xero_accounts_get" |} ].

Definition reportTools : list Tool :=
  [ {| name := "xero_reports_profit_and_loss" |};
    {| name := "xero_reports_balance_sheet" |};
    {| name := "xero_reports_aged_receivables" |};
    {| name := "xero_reports_aged_payables" |} ].

(** [if (c) o.k = v]: the entry is added when the condition holds. *)
Definition when {A : Type} (c : bool) (entry : A) : list A :=
  if c then [entry] else [].

(** [filters.join(" AND ")] into [params.where], when there is a filter. *)
Definition where_clause (filters : list string) : list (string * string) :=
  match filters with
  | [] => []
  | _ :: _ => [("where", String.concat " AND " filters)]
  end.

(** [`Field=="${v}"`]. *)
Definition equals (field : string) (v : value) : string :=
  field +:+ "==" +:+ dquote +:+ to_string_value v +:+ dquote.

Section WithPlatform.
Context (P : platform).

Definition handleContactTool (name : string) (args : list (string * json))
  : M ToolResult :=
  (client <- Client.getClient ;;
   if String.eqb name "xero_contacts_list" then
     let page := Js.get "page" args in
     let where_ := Js.get "where" args in
     let params :=
       when (defined page) ("page", to_string_value page)
       ++ when (truthy where_) ("where", to_string_value where_) in
     response <- Client.get P client "Contacts" (Some params) ;;
     ret (success response)
   else if String.eqb name "xero_contacts_get" then
     let contactId := Js.get "contactId" args in
     response <- Client.get P client
                   ("Contacts/" +:+ to_string_value contactId) None ;;
     ret (success response)
   else if String.eqb name "xero_contacts_create" then
     let Name := Js.get "Name" args in
     let EmailAddress := Js.get "EmailAddress" args in
     let FirstName := Js.get "FirstName" args in
     let LastName := Js.get "LastName" args in
     let Phone := Js.get "Phone" args in
     let AccountNumber := Js.get "AccountNumber" args in
     let TaxNumber := Js.get "TaxNumber" args in
     let IsCustomer := Js.get "IsCustomer" args in
     let IsSupplier := Js.get "IsSupplier" args in
     let contact :=
       Js.object
         ([("Name", Name)]
          ++ when (truthy EmailAddress) ("EmailAddress", EmailAddress)
          ++ when (truthy FirstName) ("FirstName", FirstName)
          ++ when (truthy LastName) ("LastName", LastName)
          ++ when (truthy Phone)
               ("Phones",
                Some (JArr [Js.object [("PhoneType", Some (JStr "DEFAULT"));
                                       ("PhoneNumber", Phone)]]))
          ++ when (truthy AccountNumber) ("AccountNumber", AccountNumber)
          ++ when (truthy TaxNumber) ("TaxNumber", TaxNumber)
          ++ when (defined IsCustomer) ("IsCustomer", IsCustomer)
          ++ when (defined IsSupplier) ("IsSupplier", IsSupplier)) in
     response <- Client.post P client "Contacts"
                   (Some (JObj [("Contacts", JArr [contact])])) ;;
     ret (success response)
   else if String.eqb name "xero_contacts_search" then
     let term := Js.get "term" args in
     let params :=
       [("where", "Name.Contains(" +:+ dquote +:+ to_string_value term
                  +:+ dquote +:+ ")")] in
     response <- Client.get P client "Contacts" (Some params) ;;
     ret (success response)
   else ret (failure ("Unknown contact tool: " +:+ name)))%js.

Definition handleInvoiceTool (name : string) (args : list (string * json))
  : M ToolResult :=
  (client <- Client.getClient ;;
   if String.eqb name "xero_invoices_list" then
     let page := Js.get "page" args in
     let Status := Js.get "Status" args in
     let Type_ := Js.get "Type" args in
     let filters :=
       when (truthy Status) (equals "Status" Status)
       ++ when (truthy Type_) (equals "Type" Type_) in
     let params :=
       when (defined page) ("page", to_string_value page)
       ++ where_clause filters in
     response <- Client.get P client "Invoices" (Some params) ;;
     ret (success response)
   else if String.eqb name "xero_invoices_get" then
     let invoiceId := Js.get "invoiceId" args in
     response <- Client.get P client
                   ("Invoices/" +:+ to_string_value invoiceId) None ;;
     ret (success response)
   else if String.eqb name "xero_invoices_create" then
     let Type_ := Js.get "Type" args in
     let ContactID := Js.get "ContactID" args in
     let LineItems := Js.get "LineItems" args in
     let Date := Js.get "Date" args in
     let DueDate := Js.get "DueDate" args in
     let Reference := Js.get "Reference" args in
     let Status := Js.get "Status" args in
     let invoice :=
       Js.object
         ([("Type", Type_);
           ("Contact", Some (Js.object [("ContactID", ContactID)]));
           ("LineItems", LineItems)]
          ++ when (truthy Date) ("Date", Date)
          ++ when (truthy DueDate) ("DueDate", DueDate)
          ++ when (truthy Reference) ("Reference", Reference)
          ++ when (truthy Status) ("Status", Status)) in
     response <- Client.post P client "Invoices"
                   (Some (JObj [("Invoices", JArr [invoice])])) ;;
     ret (success response)
   else if String.eqb name "xero_invoices_update_status" then
     let invoiceId := Js.get "invoiceId" args in
     let Status := Js.get "Status" args in
     response <- Client.post P client
                   ("Invoices/" +:+ to_string_value invoiceId)
                   (Some (Js.object [("InvoiceID", invoiceId);
                                     ("Status", Status)])) ;;
     ret (success response)
   else ret (failure ("Unknown invoice tool: " +:+ name)))%js.

Definition handlePaymentTool (name : string) (args : list (string * json))
  : M ToolResult :=
  (client <- Client.getClient ;;
   if String.eqb name "xero_payments_list" then
     let page := Js.get "page" args in
     let Status := Js.get "Status" args in
     let params :=
       when (defined page) ("page", to_string_value page)
       ++ when (truthy Status) ("where", equals "Status" Status) in
     response <- Client.get P client "Payments" (Some params) ;;
     ret (success response)
   else if String.eqb name "xero_payments_get" then
     let paymentId := Js.get "paymentId" args in
     response <- Client.get P client
                   ("Payments/" +:+ to_string_value paymentId) None ;;
     ret (success response)
   else if String.eqb name "xero_payments_create" then
     let InvoiceID := Js.get "InvoiceID" args in
     let AccountID := Js.get "AccountID" args in
     let Amount := Js.get "Amount" args in
     let Date := Js.get "Date" args in
     let Reference := Js.get "Reference" args in
     let payment :=
       Js.object
         ([("Invoice", Some (Js.object [("InvoiceID", InvoiceID)]));
           ("Account", Some (Js.object [("AccountID", AccountID)]));
           ("Amount", Amount);
           ("Date", Date)]
          ++ when (truthy Reference) ("Reference", Reference)) in
     response <- Client.post P client "Payments"
                   (Some (JObj [("Payments", JArr [payment])])) ;;
     ret (success response)
   else ret (failure ("Unknown payment tool: " +:+ name)))%js.

Definition handleAccountTool (name : string) (args : list (string * json))
  : M ToolResult :=
  (client <- Client.getClient ;;
   if String.eqb name "xero_accounts_list" then
     let Type_ := Js.get "Type" args in
     let Class := Js.get "Class" args in
     let filters :=
       when (truthy Type_) (equals "Type" Type_)
       ++ when (truthy Class) (equals "Class" Class) in
     let params := where_clause filters in
     response <- Client.get P client "Accounts" (Some params) ;;
     ret (success response)
   else if String.eqb name "xero_accounts_get" then
     let accountId := Js.get "accountId" args in
     response <- Client.get P client
                   ("Accounts/" +:+ to_string_value accountId) None ;;
     ret (success response)
   else ret (failure ("Unknown account tool: " +:+ name)))%js.

Definition handleReportTool (name : string) (args : list (string * json))
  : M ToolResult :=
  (client <- Client.getClient ;;
   if String.eqb name "xero_reports_profit_and_loss" then
     let fromDate := Js.get "fromDate" args in
     let toDate := Js.get "toDate" args in
     response <- Client.get P client "Reports/ProfitAndLoss"
                   (Some [("fromDate", to_string_value fromDate);
                          ("toDate", to_string_value toDate)]) ;;
     ret (success response)
   else if String.eqb name "xero_reports_balance_sheet" then
     let date := Js.get "date" args in
     response <- Client.get P client "Reports/BalanceSheet"
                   (Some [("date", to_string_value date)]) ;;
     ret (success response)
   else if String.eqb name "xero_reports_aged_receivables" then
     let date := Js.get "date" args in
     response <- Client.get P client "Reports/AgedReceivablesByContact"
                   (Some [("date", to_string_value date)]) ;;
     ret (success response)
   else if String.eqb name "xero_reports_aged_payables" then
     let date := Js.get "date" args in
     response <- Client.get P client "Reports/AgedPayablesByContact"
                   (Some [("date", to_string_value date)]) ;;
     ret (success response)
   else ret (failure ("Unknown report tool: " +:+ name)))%js.

End WithPlatform.

End Domains.

(** ** src/index.ts *)

Module Server.

Import Domains.

(** [type Domain]: the five literal strings. *)
Inductive Domain : Type :=
| contacts
| invoices
| payments
| accounts
| reports.

Definition all_domains : list Domain :=
  [contacts; invoices; payments; accounts; reports].

(** The string literal a [Domain] is at run time. *)
Definition domain_name (d : Domain) : string :=
  match d with
  | contacts => "contacts"
  | invoices => "invoices"
  | payments => "payments"
  | accounts => "accounts"
  | reports => "reports"
  end.

(** The navigation states: [ROOT] is [currentDomain === null],
    [IN_DOMAIN d] holds the literal of [d]. *)
Definition ROOT : ServerState := {| currentDomain := null |}.

Definition IN_DOMAIN (d : Domain) : ServerState :=
  {| currentDomain := Some (JStr (domain_name d)) |}.

(** The [case] labels of [getDomainTools]: the domain a run-time value is
    strictly equal to, if any. *)
Definition as_domain (v : value) : option Domain :=
  match v with
  | Some (JStr s) =>
      if String.eqb s "contacts" then Some contacts
      else if String.eqb s "invoices" then Some invoices
      else if String.eqb s "payments" then Some payments
      else if String.eqb s "accounts" then Some accounts
      else if String.eqb s "reports" then Some reports
      else None
  | _ => None
  end.

(** The tools registered for a domain. *)
Definition tools_of (d : Domain) : list Tool :=
  match d with
  | contacts => contactTools
  | invoices => invoiceTools
  | payments => paymentTools
  | accounts => accountTools
  | reports => reportTools
  end.

(** [function getDomainTools(domain)]: the [switch] has no [default], so a
    value matching no label falls out of the function, which then returns
    [undefined] ([None]). *)
Definition getDomainTools (domain : value) : option (list Tool) :=
  tools_of <$> as_domain domain.

Definition navigateTool : Tool := {| name := "xero_navigate" |}.
Definition backTool : Tool := {| name := "xero_back" |}.

(** The ListTools handler. It reads [state] only. Spreading [undefined]
    into [tools.push] throws. *)
Definition listTools (s : ServerState) : outcome (list Tool) :=
  match currentDomain s with
  | Some JNull => Returns [navigateTool]
  | domain =>
      match getDomainTools domain with
      | Some domainTools => Returns (backTool :: domainTools)
      | None =>
          Throws (TypeError
            "Spread syntax requires ...iterable[Symbol.iterator] to be a function")
      end
  end.

(** The tool-name prefix that routes to a domain's handler. *)
Definition domain_prefix (d : Domain) : string :=
  "xero_" +:+ domain_name d +:+ "_".

Definition back_text : string :=
  "Returned to domain selection. Use xero_navigate to select a domain: contacts, invoices, payments, accounts, reports".

Definition unknown_tool (name : string) : ToolResult :=
  failure ("Unknown tool: " +:+ name
           +:+ ". Use xero_navigate to select a domain first.").

(** The [catch (error)] clause of the CallTool handler. *)
Definition on_error (error : exn) : M ToolResult :=
  ret (failure ("Error: " +:+ message error)).

Section WithPlatform.
Context (P : platform).

Definition handler_of (d : Domain)
  : string -> list (string * json) -> M ToolResult :=
  match d with
  | contacts => handleContactTool P
  | invoices => handleInvoiceTool P
  | payments => handlePaymentTool P
  | accounts => handleAccountTool P
  | reports => handleReportTool P
  end.

(** The body of the [try] block of the CallTool handler. [args] is
    [request.params.arguments], absent when the request carries none. *)
Definition callTool_body (name : string) (args : option (list (string * json)))
  : M ToolResult :=
  (if String.eqb name "xero_navigate" then
     match args with
     | None =>
         throw (TypeError
           "Cannot destructure property 'domain' of 'args' as it is undefined.")
     | Some fields =>
         let domain := Js.get "domain" fields in
         modify (set_state {| currentDomain := domain |}) ;;
         match getDomainTools domain with
         | None =>
             throw (TypeError
               "Cannot read properties of undefined (reading 'map')")
         | Some domainTools =>
             let toolNames := String.concat ", " (map Domains.name domainTools) in
             ret {| content :=
                      [Text ("Navigated to " +:+ to_string_value domain
                             +:+ " domain. Available tools: " +:+ toolNames)];
                    isError := false |}
         end
     end
   else if String.eqb name "xero_back" then
     modify (set_state {| currentDomain := null |}) ;;
     ret {| content := [Text back_text]; isError := false |}
   else
     let toolArgs := default [] args in
     if String.prefix "xero_contacts_" name then handleContactTool P name toolArgs
     else if String.prefix "xero_invoices_" name then handleInvoiceTool P name toolArgs
     else if String.prefix "xero_payments_" name then handlePaymentTool P name toolArgs
     else if String.prefix "xero_accounts_" name then handleAccountTool P name toolArgs
     else if String.prefix "xero_reports_" name then handleReportTool P name toolArgs
     else ret (unknown_tool name))%js.

(** The CallTool handler. *)
Definition callTool (name : string) (args : option (list (string * json)))
  : M ToolResult :=
  try_catch (callTool_body name args) on_error.

End WithPlatform.

(** An inbound HTTP request as the listener reads it: the path name of its
    URL and its headers, keyed by lower-cased name as Node delivers them. *)
Record IncomingMessage : Type := {
  pathname : string;
  req_headers : gmap string string;
}.

(** What the listener does with the request: it writes a status and a JSON
    body itself, or hands the request to the protocol transport. *)
Inductive reply : Type :=
| Respond (code : N) (payload : json)
| HandleRequest.

Definition missing_credentials : json :=
  JObj [("error", JStr "Missing credentials");
        ("message",
         JStr "Gateway mode requires X-Xero-Access-Token and X-Xero-Tenant-Id headers");
        ("required", JArr [JStr "X-Xero-Access-Token"; JStr "X-Xero-Tenant-Id"])].

Definition not_found : json :=
  JObj [("error", JStr "Not found");
        ("endpoints", JArr [JStr "/mcp"; JStr "/health"])].

Definition health (isGatewayMode : bool) (timestamp : string) : json :=
  JObj [("status", JStr "ok");
        ("transport", JStr "http");
        ("authMode", JStr (if isGatewayMode then "gateway" else "env"));
        ("timestamp", JStr timestamp)].

(** The request listener of [startHttpTransport]. [isGatewayMode] is fixed
    when the host starts; [now] is [new Date().toISOString()]. *)
Definition requestListener (isGatewayMode : bool) (now : string)
    (req : IncomingMessage) (w : world) : reply * world :=
  if String.eqb (pathname req) "/health" then
    (Respond 200 (health isGatewayMode now), w)
  else if String.eqb (pathname req) "/mcp" then
    if isGatewayMode then
      let accessToken := req_headers req !! "x-xero-access-token" in
      let tenantId := req_headers req !! "x-xero-tenant-id" in
      if negb (truthy_string accessToken) || negb (truthy_string tenantId) then
        (Respond 401 missing_credentials, w)
      else
        let w1 := snd (Client.resetClient w) in
        let w2 := set_env (<["XERO_ACCESS_TOKEN" := default EmptyString accessToken]>
                             (env w1)) w1 in
        let w3 := set_env (<["XERO_TENANT_ID" := default EmptyString tenantId]>
                             (env w2)) w2 in
        (HandleRequest, w3)
    else (HandleRequest, w)
  else (Respond 404 not_found, w).

End Server.

(** ** Vocabulary of the specification *)

Module Spec.

Import Domains Server.

(** The navigation states the specification names. *)
Definition well_formed (s : ServerState) : Prop :=
  s = ROOT \/ exists d, s = IN_DOMAIN d.

(** A computation that neither reads nor writes the navigation state: run
    from another navigation state it does the same and leaves that state in
    place. *)
Definition state_blind {A : Type} (m : M A) : Prop :=
  forall s w, m (set_state s w) = (fst (m w), set_state s (snd (m w))).

(** A tool identifier that routes to some domain handler. *)
Definition is_domain_tool (name : string) : bool :=
  existsb (fun d => String.prefix (domain_prefix d) name) all_domains.

(** The four single-request operations of the client. *)
Inductive operation : Type :=
| Get (path : string) (params : option (list (string * string)))
| Post (path : string) (body : value)
| Put (path : string) (body : value)
| Delete (path : string).

Definition op_method (op : operation) : string :=
  match op with
  | Get _ _ => "GET"
  | Post _ _ => "POST"
  | Put _ _ => "PUT"
  | Delete _ => "DELETE"
  end.

Definition op_path (op : operation) : string :=
  match op with
  | Get p _ | Post p _ | Put p _ | Delete p => p
  end.

(** The call handed to [fetch] by an operation. *)
Definition op_request (this : XeroClient) (op : operation) : http_request :=
  match op with
  | Get p q => Client.build_request this "GET" p q None
  | Post p b => Client.build_request this "POST" p None b
  | Put p b => Client.build_request this "PUT" p None b
  | Delete p => Client.build_request this "DELETE" p None None
  end.

Definition run (P : platform) (this : XeroClient) (op : operation) : M json :=
  match op with
  | Get p q => Client.get P this p q
  | Post p b => Client.post P this p b
  | Put p b => Client.put P this p b
  | Delete p => Client.delete P this p
  end.

(** [part] occurs in [whole]. *)
Definition carries (whole part : string) : Prop :=
  exists before after, whole = before +:+ part +:+ after.

(** The call [getPaginated] hands to [fetch] for a page. *)
Definition page_request (this : XeroClient) (path : string)
    (params : option (list (string * string))) (page : nat) : http_request :=
  Client.build_request this "GET" path (Some (Client.with_page params page)) None.

(** What [get] returns for that page. *)
Definition page_response (P : platform) (this : XeroClient) (path : string)
    (params : option (list (string * string))) (page : nat) : outcome json :=
  Client.settle "GET" path (fetch P (page_request this path params page)).

(** What a page contributes to the loop: its items, or the error that ends
    the call. *)
Definition page_yield (P : platform) (this : XeroClient) (path : string)
    (params : option (list (string * string))) (responseKey : option string)
    (page : nat) : items_view :=
  match page_response P this path params page with
  | Throws e => Fails e
  | Returns response => Client.page_items P responseKey response
  end.

(** A page that yields fewer than [XERO_PAGE_SIZE] items, possibly none. *)
Definition short (v : items_view) : bool :=
  match v with
  | NoItems => true
  | Items _ n => (n <? Client.XERO_PAGE_SIZE)%nat
  | Fails _ => false
  end.

(** The world after a series of calls was handed to [fetch]. *)
Definition log_requests (rs : list http_request) (w : world) : world :=
  {| state := state w; _client := _client w; env := env w;
     requests := requests w ++ rs |}.

(** The array-valued field of a page body the specification speaks of: the
    one named by the caller or, absent a name, the first one. *)
Definition array_field (responseKey : option string)
    (fields : list (string * json)) : option (list json) :=
  match responseKey with
  | Some k =>
      match Js.get k fields with
      | Some (JArr l) => Some l
      | _ => None
      end
  | None => find_array (map snd fields)
  end.

(** The field name the caller gave, an empty string counting as none. *)
Definition given_name (responseKey : option string) : option string :=
  match responseKey with
  | Some k => if String.eqb k EmptyString then None else Some k
  | None => None
  end.

(** A header that is not sent, or sent with an empty value. *)
Definition absent_or_empty (v : option string) : Prop :=
  v = None \/ v = Some EmptyString.

(** The field [k] of a JSON object. *)
Definition field (k : string) (j : json) : value :=
  match j with
  | JObj fields => Js.get k fields
  | _ => None
  end.

(** *** Concrete scenarios *)

(** A process that has just started in Direct mode without credentials. *)
Definition just_started : world :=
  {| state := ROOT; _client := None; env := ∅; requests := [] |}.

Definition a_client : XeroClient :=
  {| config := {| accessToken := "token-A"; tenantId := "tenant-A" |} |}.

(** A process that holds a cached client for tenant A. *)
Definition serving_A : world :=
  {| state := ROOT;
     _client := Some a_client;
     env := <["XERO_ACCESS_TOKEN" := "token-A"]>
              (<["XERO_TENANT_ID" := "tenant-A"]> ∅);
     requests := [] |}.

(** The page number a request asks for, among the first [n]. *)
Fixpoint asked_page (req : http_request) (n : nat) : option nat :=
  match n with
  | O => None
  | S n' =>
      match asked_page req n' with
      | Some p => Some p
      | None =>
          match Js.get "page" (params req) with
          | Some s => if String.eqb s (pretty n) then Some n else None
          | None => None
          end
      end
  end.

Definition invoice (i : nat) : json :=
  JObj [("InvoiceNumber", JStr ("INV-" +:+ pretty i))].

Definition invoices_array (size : nat) : list json :=
  map invoice (seq 0 size).

Definition invoices_fields (size : nat) : list (string * json) :=
  [("Id", JStr "e3f1"); ("Invoices", JArr (invoices_array size))].

Definition invoices_body (size : nat) : json := JObj (invoices_fields size).

(** A remote API that serves pages of the given sizes under the key
    [Invoices], and empty pages beyond them. *)
Definition paged (sizes : list nat) : platform :=
  {| fetch := fun req =>
       let size :=
         match asked_page req (length sizes) with
         | Some p => default 0 (sizes !! (p - 1))
         | None => 0
         end in
       Response {| status := 200; text := EmptyString;
                   json_body := Parsed (invoices_body size) |};
     dynamic_items := fun _ _ => NoItems |}.

(** A remote API that answers every call with status 200 and the given
    body. *)
Definition serving (fields : list (string * json)) : platform :=
  {| fetch := fun _ =>
       Response {| status := 200; text := EmptyString;
                   json_body := Parsed (JObj fields) |};
     dynamic_items := fun _ _ => NoItems |}.

(** A remote API that answers every call with the given status and text. *)
Definition always (code : N) (txt : string) : platform :=
  {| fetch := fun _ =>
       Response {| status := code; text := txt;
                   json_body := Malformed "Unexpected end of JSON input" |};
     dynamic_items := fun _ _ => NoItems |}.

End Spec.

Import Domains Server Spec.

(** ** Start-up configuration (src/index.ts, [main] and [startHttpTransport]) *)

Module Startup.

(** [v || d] on a [string | undefined]: the default replaces an unset or
    empty value. *)
Definition or_else (v : option string) (d : string) : string :=
  match v with
  | Some s => if String.eqb s EmptyString then d else s
  | None => d
  end.

(** The transport [main] starts. *)
Inductive transport : Type :=
| StdioServerTransport
| StreamableHTTPServerTransport.

(** [async function main()], by the transport it starts. *)
Definition main (env : gmap string string) : transport :=
  let transportType := or_else (env !! "MCP_TRANSPORT") "stdio" in
  if String.eqb transportType "http" then StreamableHTTPServerTransport
  else StdioServerTransport.

(** [const authMode = process.env.AUTH_MODE || "env"] and
    [const isGatewayMode = authMode === "gateway"]. *)
Definition isGatewayMode (env : gmap string string) : bool :=
  let authMode := or_else (env !! "AUTH_MODE") "env" in
  String.eqb authMode "gateway".

(** The request listener [startHttpTransport] installs in a process started
    with the environment [env]. *)
Definition listener (env : gmap string string) (now : string)
    (req : IncomingMessage) : world -> reply * world :=
  requestListener (isGatewayMode env) now req.

End Startup.

(** ** Further vocabulary *)

Module Terms.

(** The tool identifier is one of those registered for the domain. *)
Definition registered (d : Domain) (name : string) : bool :=
  existsb (String.eqb name) (map Domains.name (tools_of d)).

(** The word a domain handler uses for its tools in its [default] case. *)
Definition domain_noun (d : Domain) : string :=
  match d with
  | contacts => "contact"
  | invoices => "invoice"
  | payments => "payment"
  | accounts => "account"
  | reports => "report"
  end.


(** What a handler makes of the settled call: the decoded response wrapped
    as a result, or the error passed on. *)
Definition wrap (o : outcome json) : outcome ToolResult :=
  match o with
  | Returns v => Returns (success v)
  | Throws e => Throws e
  end.

(** What the CallTool handler makes of the outcome of its [try] block. *)
Definition caught (o : outcome ToolResult) : ToolResult :=
  match o with
  | Returns r => r
  | Throws e => failure ("Error: " +:+ message e)
  end.

(** The text of a successful navigation. *)
Definition navigated (d : Domain) : ToolResult :=
  {| content :=
       [Text ("Navigated to " +:+ domain_name d +:+ " domain. Available tools: "
              +:+ String.concat ", " (map Domains.name (tools_of d)))];
     isError := false |}.

(** A remote API that serves pages of the given sizes under the key
    [Invoices] and answers any further call with the given status and text. *)
Definition paged_then (sizes : list nat) (code : N) (txt : string) : platform :=
  {| fetch := fun req =>
       match asked_page req (length sizes) with
       | Some p =>
           Response {| status := 200; text := EmptyString;
                       json_body :=
                         Parsed (invoices_body (default 0 (sizes !! (p - 1)))) |}
       | None =>
           Response {| status := code; text := txt;
                       json_body := Malformed "Unexpected end of JSON input" |}
       end;
     dynamic_items := fun _ _ => NoItems |}.

End Terms.

Import Startup Terms.

(** * Properties *)

(** ** Strings *)

Lemma prefix_split (p s : string) :
  String.prefix p s = true -> exists r, s = p +:+ r.
Proof.
  revert s. induction p as [|a p IH]; intros s H.
  - exists s. reflexivity.
  - destruct s as [|b s]; simpl in H; [discriminate|].
    destruct (Ascii.ascii_dec a b) as [->|]; [|discriminate].
    destruct (IH s H) as [r ->]. exists r. reflexivity.
Qed.

Lemma prefix_append (p r : string) : String.prefix p (p +:+ r) = true.
Proof.
  induction p as [|a p IH]; [destruct r; reflexivity|].
  change (String.prefix (String a p) (String a (p +:+ r)) = true).
  simpl. destruct (Ascii.ascii_dec a a); [exact IH | congruence].
Qed.

Lemma carries_middle (a b c : string) : carries (a +:+ b +:+ c) b.
Proof. exists a, c. reflexivity. Qed.

Lemma append_assoc (a b c : string) : (a +:+ b) +:+ c = a +:+ (b +:+ c).
Proof.
  induction a as [|x a IH]; [reflexivity|].
  change (String x ((a +:+ b) +:+ c) = String x (a +:+ (b +:+ c))).
  now rewrite IH.
Qed.

(** ** Computations that neither read nor write the navigation state *)

Section StateBlind.

Lemma blind_ret {A : Type} (a : A) : state_blind (ret a).
Proof. intros s w. reflexivity. Qed.

Lemma blind_throw {A : Type} (e : exn) : state_blind (@throw A e).
Proof. intros s w. reflexivity. Qed.

Lemma blind_bind {A B : Type} (m : M A) (k : A -> M B) :
  state_blind m -> (forall a, state_blind (k a)) -> state_blind (bind m k).
Proof.
  intros Hm Hk s w. unfold bind. rewrite (Hm s w).
  destruct (m w) as [[a|e] w']; simpl; [apply Hk | reflexivity].
Qed.

Lemma blind_try_catch {A : Type} (m : M A) (h : exn -> M A) :
  state_blind m -> (forall e, state_blind (h e)) -> state_blind (try_catch m h).
Proof.
  intros Hm Hh s w. unfold try_catch. rewrite (Hm s w).
  destruct (m w) as [[a|e] w']; simpl; [reflexivity | apply Hh].
Qed.

Lemma blind_getClient : state_blind Client.getClient.
Proof.
  intros s w. unfold Client.getClient. simpl.
  destruct (_client w); [reflexivity|].
  destruct (negb _ || negb _); reflexivity.
Qed.

Lemma blind_request (P : platform) this method path params body :
  state_blind (Client.request P this method path params body).
Proof. intros s w. reflexivity. Qed.

Lemma blind_frame {A : Type} (m : M A) (w : world) :
  state_blind m -> state (snd (m w)) = state w.
Proof.
  intros Hm. pose proof (Hm (state w) w) as H.
  assert (set_state (state w) w = w) as E by (destruct w; reflexivity).
  rewrite E in H. rewrite H at 1. reflexivity.
Qed.

End StateBlind.

Ltac blind_step :=
  first
    [ apply blind_ret
    | apply blind_throw
    | apply blind_getClient
    | apply blind_request
    | apply blind_bind; [|intros ?]
    | match goal with
      | |- state_blind (if ?c then _ else _) => destruct c
      end ].

Ltac blind := repeat (cbv zeta; blind_step).

Lemma blind_handler (P : platform) (d : Domain) name args :
  state_blind (handler_of P d name args).
Proof.
  destruct d; simpl;
    [ unfold handleContactTool | unfold handleInvoiceTool
    | unfold handlePaymentTool | unfold handleAccountTool
    | unfold handleReportTool ];
    unfold Client.get, Client.post; blind.
Qed.

(** ** Routing *)

Lemma routes_to_handler (P : platform) (d : Domain) name args :
  String.prefix (domain_prefix d) name = true ->
  callTool_body P name args = handler_of P d name (default [] args).
Proof.
  intros H. destruct (prefix_split _ _ H) as [r ->]. clear H.
  unfold callTool_body.
  destruct d;
    repeat match goal with
      | |- context [if String.eqb ?a ?b then _ else _] =>
          replace (String.eqb a b) with false by reflexivity
      | |- context [if String.prefix ?a ?b then _ else _] =>
          first [ replace (String.prefix a b) with false by reflexivity
                | replace (String.prefix a b) with true
                    by (symmetry; apply (prefix_append a r)) ]
      end;
    reflexivity.
Qed.

Lemma not_domain_tool (name : string) :
  is_domain_tool name = false ->
  forall d, String.prefix (domain_prefix d) name = false.
Proof.
  unfold is_domain_tool, all_domains. simpl.
  intros H d.
  repeat (apply orb_false_elim in H; destruct H as [? H]).
  destruct d; assumption.
Qed.

(** Whatever the request, the CallTool handler returns a result. *)
Lemma callTool_returns (P : platform) name args w :
  exists result, fst (callTool P name args w) = Returns result.
Proof.
  unfold callTool, try_catch, on_error.
  destruct (callTool_body P name args w) as [[r|e] w']; simpl; eauto.
Qed.

Lemma domain_tool_routes (name : string) :
  is_domain_tool name = true ->
  exists d, String.prefix (domain_prefix d) name = true.
Proof.
  unfold is_domain_tool. rewrite existsb_exists.
  intros [d [_ H]]. exists d. exact H.
Qed.

Lemma blind_callTool (P : platform) name args :
  is_domain_tool name = true -> state_blind (callTool P name args).
Proof.
  intros H. destruct (domain_tool_routes _ H) as [d Hd].
  unfold callTool. rewrite (routes_to_handler P d name args Hd).
  apply blind_try_catch; [apply blind_handler|].
  intros e. apply blind_ret.
Qed.

(** A name that matches no branch falls through to the last [return]. *)
Lemma unrouted_is_unknown (P : platform) name args w :
  name <> "xero_navigate" ->
  name <> "xero_back" ->
  is_domain_tool name = false ->
  callTool P name args w = (Returns (unknown_tool name), w).
Proof.
  intros Hnav Hback Hdom.
  apply String.eqb_neq in Hnav, Hback.
  pose proof (not_domain_tool name Hdom) as H.
  pose proof (H contacts) as H1. pose proof (H invoices) as H2.
  pose proof (H payments) as H3. pose proof (H accounts) as H4.
  pose proof (H reports) as H5.
  change (domain_prefix contacts) with "xero_contacts_" in H1.
  change (domain_prefix invoices) with "xero_invoices_" in H2.
  change (domain_prefix payments) with "xero_payments_" in H3.
  change (domain_prefix accounts) with "xero_accounts_" in H4.
  change (domain_prefix reports) with "xero_reports_" in H5.
  unfold callTool, try_catch, callTool_body.
  rewrite Hnav, Hback, H1, H2, H3, H4, H5. reflexivity.
Qed.

(** The navigate branch leaves in the state whatever [domain] it was given,
    whether or not the lookup that follows succeeds. *)
Lemma navigate_stores_argument (P : platform) fields w :
  state (snd (callTool P "xero_navigate" (Some fields) w))
    = {| currentDomain := Js.get "domain" fields |}.
Proof.
  unfold callTool, try_catch, callTool_body, bind, modify. simpl.
  destruct (getDomainTools (Js.get "domain" fields)); reflexivity.
Qed.

Lemma as_domain_name (v : value) (d : Domain) :
  as_domain v = Some d -> v = Some (JStr (domain_name d)).
Proof.
  destruct v as [[| | |s| |]|]; simpl; try discriminate.
  repeat match goal with
    | |- context [String.eqb s ?l] =>
        destruct (String.eqb_spec s l) as [->|]
    end; intros H; inversion H; reflexivity.
Qed.

(** The navigation invariant survives every call whose navigate argument,
    if any, is one of the five domains. *)
Lemma callTool_keeps_well_formed (P : platform) name args w :
  well_formed (state w) ->
  (forall fields, name = "xero_navigate" -> args = Some fields ->
     exists d, as_domain (Js.get "domain" fields) = Some d) ->
  well_formed (state (snd (callTool P name args w))).
Proof.
  intros Hw Hargs.
  destruct (String.eqb_spec name "xero_navigate") as [->|Hnav].
  - destruct args as [fields|]; [|exact Hw].
    destruct (Hargs fields eq_refl eq_refl) as [d Hd].
    rewrite navigate_stores_argument, (as_domain_name _ _ Hd).
    right. exists d. reflexivity.
  - destruct (String.eqb_spec name "xero_back") as [->|Hback];
      [left; reflexivity|].
    destruct (is_domain_tool name) eqn:Hdom.
    + now rewrite (blind_frame _ w (blind_callTool P name args Hdom)).
    + now rewrite (unrouted_is_unknown P name args w Hnav Hback Hdom).
Qed.

(** ** The router *)

(** C3. Tool listing is a function of the navigation state alone: at [ROOT]
    it returns exactly the navigate tool; in a domain [d] it returns the back
    tool followed by exactly the tools registered for [d], and no tool
    registered for another domain is among them. *)
Theorem listTools_projects_state :
  listTools ROOT = Returns [navigateTool] /\
  forall d : Domain,
    listTools (IN_DOMAIN d) = Returns (backTool :: tools_of d) /\
    forall (d' : Domain) (t : Tool),
      d' <> d -> t ∈ tools_of d' -> t ∉ backTool :: tools_of d.
Proof.
  split; [reflexivity|]. intros d. split; [destruct d; reflexivity|].
  intros d' t Hne Hin Hout.
  destruct d, d'; try congruence; simpl in Hin, Hout;
    unfold contactTools, invoiceTools, paymentTools, accountTools, reportTools,
      backTool in *;
    repeat (apply elem_of_cons in Hin as [->|Hin]);
    try (apply elem_of_nil in Hin; contradiction);
    repeat (apply elem_of_cons in Hout as [Hout|Hout]; [discriminate Hout|]);
    apply elem_of_nil in Hout; contradiction.
Qed.

Lemma listTools_projects_state_witness :
  contacts <> invoices /\
  {| name := "xero_contacts_search" |} ∈ tools_of contacts /\
  {| name := "xero_contacts_search" |} ∉ backTool :: tools_of invoices.
Proof.
  assert (contacts <> invoices) as Hne by discriminate.
  assert ({| name := "xero_contacts_search" |} ∈ tools_of contacts) as Hin
    by (simpl; unfold contactTools; repeat constructor).
  split; [exact Hne|]. split; [exact Hin|].
  exact (proj2 (proj2 listTools_projects_state invoices) contacts _ Hne Hin).
Defined.

Lemma navigate_enters_domain (P : platform) (d : Domain) w :
  state (snd (callTool P "xero_navigate"
                (Some [("domain", JStr (domain_name d))]) w)) = IN_DOMAIN d.
Proof. destruct d; reflexivity. Qed.

Lemma back_returns_to_root (P : platform) args w :
  state (snd (callTool P "xero_back" args w)) = ROOT.
Proof. reflexivity. Qed.

(** C4. The navigation state is meant to hold one of the five domains or
    none. The navigate branch stores its argument before looking it up: with
    the argument [timesheets], which is outside the enumerated set, the call
    ends in the catch clause with an error result, the state is left holding
    [timesheets], and the next tool listing throws. *)
Theorem navigate_stores_unchecked_argument (P : platform) :
  let after :=
    callTool P "xero_navigate" (Some [("domain", JStr "timesheets")])
      just_started in
  well_formed (state just_started) /\
  fst after =
    Returns (failure "Error: Cannot read properties of undefined (reading 'map')") /\
  state (snd after) = {| currentDomain := Some (JStr "timesheets") |} /\
  ~ well_formed (state (snd after)) /\
  listTools (state (snd after)) =
    Throws (TypeError
      "Spread syntax requires ...iterable[Symbol.iterator] to be a function").
Proof.
  simpl. split; [left; reflexivity|]. split; [reflexivity|].
  split; [reflexivity|]. split; [|reflexivity].
  intros [H | [d H]]; [discriminate H | destruct d; discriminate H].
Qed.

(** C7. A tool identifier that is neither of the two navigation identifiers
    and begins with none of the five domain prefixes gets an error-flagged
    result; the handler returns it and throws nothing, and the process state
    is as before. *)
Theorem unknown_tool_is_error_result (P : platform) name args w :
  name <> "xero_navigate" ->
  name <> "xero_back" ->
  is_domain_tool name = false ->
  callTool P name args w = (Returns (unknown_tool name), w) /\
  isError (unknown_tool name) = true.
Proof.
  intros Hnav Hback Hdom. split; [|reflexivity].
  now apply unrouted_is_unknown.
Qed.

Lemma unknown_tool_is_error_result_witness :
  callTool (always 500 "down") "list_everything" None just_started
    = (Returns (unknown_tool "list_everything"), just_started) /\
  isError (unknown_tool "list_everything") = true.
Proof.
  apply (unknown_tool_is_error_result (always 500 "down") "list_everything"
           None just_started); [discriminate | discriminate | reflexivity].
Defined.

(** C8. Dispatching a domain tool leaves the navigation state as it was,
    whatever the handler does: return a result, fail on credentials, on the
    remote call or on its input, or throw. *)
Theorem domain_tool_keeps_navigation_state (P : platform) name args w :
  is_domain_tool name = true ->
  state (snd (callTool P name args w)) = state w.
Proof.
  intros H. apply blind_frame. apply blind_callTool. exact H.
Qed.

Lemma domain_tool_keeps_navigation_state_witness :
  let w := set_state (IN_DOMAIN contacts) serving_A in
  fst (callTool (always 500 "down") "xero_invoices_get"
         (Some [("invoiceId", JStr "9a1c")]) w)
    = Returns (failure "Error: Xero API error GET /Invoices/9a1c (500): down") /\
  state (snd (callTool (always 500 "down") "xero_invoices_get"
                (Some [("invoiceId", JStr "9a1c")]) w)) = IN_DOMAIN contacts.
Proof.
  split; [reflexivity|].
  apply (domain_tool_keeps_navigation_state (always 500 "down")
           "xero_invoices_get" (Some [("invoiceId", JStr "9a1c")])).
  reflexivity.
Defined.

(** C10. Dispatch does not consult the navigation state. A tool identifier
    that begins with the prefix of domain [d] is handed to the handler of
    [d], and the call made from any other navigation state [s] gives the
    same result and the same effects. *)
Theorem dispatch_ignores_navigation_state (P : platform) (d : Domain)
    name args w s :
  String.prefix (domain_prefix d) name = true ->
  callTool P name args w
    = try_catch (handler_of P d name (default [] args)) on_error w /\
  callTool P name args (set_state s w)
    = (fst (callTool P name args w), set_state s (snd (callTool P name args w))).
Proof.
  intros H. split.
  - unfold callTool. now rewrite (routes_to_handler P d name args H).
  - apply blind_callTool. unfold is_domain_tool. rewrite existsb_exists.
    exists d. split; [destruct d; simpl; tauto | exact H].
Qed.

Lemma dispatch_ignores_navigation_state_witness :
  fst (callTool (paged [2]) "xero_invoices_list" None
         (set_state (IN_DOMAIN reports) serving_A))
    = Returns (success (invoices_body 0)) /\
  fst (callTool (paged [2]) "xero_invoices_list" None
         (set_state ROOT serving_A))
    = Returns (success (invoices_body 0)).
Proof.
  pose proof (dispatch_ignores_navigation_state (paged [2]) invoices
                "xero_invoices_list" None serving_A) as H.
  split.
  - rewrite (proj2 (H (IN_DOMAIN reports) eq_refl)). reflexivity.
  - rewrite (proj2 (H ROOT eq_refl)). reflexivity.
Defined.

(** ** The REST client *)

Lemma request_runs (P : platform) this method path params body w :
  Client.request P this method path params body w
    = (Client.settle method path
         (fetch P (Client.build_request this method path params body)),
       log_request (Client.build_request this method path params body) w).
Proof. reflexivity. Qed.

Lemma run_is_request (P : platform) this (op : operation) w :
  run P this op w
    = (Client.settle (op_method op) (op_path op) (fetch P (op_request this op)),
       log_request (op_request this op) w).
Proof. destruct op; reflexivity. Qed.

Lemma settle_not_ok method path r :
  ok r = false ->
  Client.settle method path (Response r) = Throws (Client.api_error method path r).
Proof. intros H. unfold Client.settle. now rewrite H. Qed.

Lemma settle_no_content method path r :
  status r = 204%N -> Client.settle method path (Response r) = Returns JNull.
Proof. intros H. unfold Client.settle, ok. now rewrite H. Qed.

Lemma api_error_carries method path r :
  let m := message (Client.api_error method path r) in
  carries m method /\ carries m path /\
  carries m (pretty (status r)) /\ carries m (text r).
Proof.
  simpl. repeat split.
  - apply carries_middle.
  - exists ("Xero API error " +:+ method +:+ " /"),
      (" (" +:+ pretty (status r) +:+ "): " +:+ text r).
    now rewrite !append_assoc.
  - exists ("Xero API error " +:+ method +:+ " /" +:+ path +:+ " ("),
      ("): " +:+ text r).
    now rewrite !append_assoc.
  - exists ("Xero API error " +:+ method +:+ " /" +:+ path +:+ " ("
            +:+ pretty (status r) +:+ "): "), EmptyString.
    rewrite !append_assoc. repeat f_equal.
    induction (text r) as [|c t IH]; [reflexivity|].
    change (String c t = String c (t +:+ EmptyString)). now rewrite <- IH.
Qed.

Lemma page_is_get (P : platform) this path params page w :
  Client.get P this path (Some (Client.with_page params page)) w
    = (page_response P this path params page,
       log_request (page_request this path params page) w).
Proof. reflexivity. Qed.

(** One turn of the loop, by what the page yields. *)
Lemma loop_step (P : platform) this path params responseKey fuel page acc w :
  Client.getPaginated_loop P this path params responseKey (S fuel) page acc w
    = let w' := log_request (page_request this path params page) w in
      match page_yield P this path params responseKey page with
      | Fails e => Some (Throws e, w')
      | NoItems => Some (Returns acc, w')
      | Items items n =>
          if (Client.XERO_PAGE_SIZE <=? n)%nat
          then Client.getPaginated_loop P this path params responseKey fuel
                 (S page) (acc ++ items) w'
          else Some (Returns (acc ++ items), w')
      end.
Proof.
  cbn [Client.getPaginated_loop]. rewrite page_is_get. unfold page_yield.
  destruct (page_response P this path params page); reflexivity.
Qed.

Lemma log_requests_nil w : log_requests [] w = w.
Proof. destruct w. unfold log_requests. simpl. now rewrite app_nil_r. Qed.

Lemma log_requests_cons r rs w :
  log_requests rs (log_request r w) = log_requests (r :: rs) w.
Proof. unfold log_requests, log_request. simpl. now rewrite <- app_assoc. Qed.

(** C6. A response whose status is outside 200-299 makes the call throw an
    error whose message carries the method, the path, the status code and
    the raw response body: for [request] with any method, hence for [get],
    [post], [put] and [delete], and for a page request of [getPaginated],
    which ends the whole call with that error. No result is returned. *)
Theorem non_success_response_is_error (P : platform) (this : XeroClient) :
  (forall method path params body r w,
      fetch P (Client.build_request this method path params body) = Response r ->
      ok r = false ->
      let e := Client.api_error method path r in
      Client.request P this method path params body w
        = (Throws e, log_request (Client.build_request this method path params body) w) /\
      carries (message e) method /\ carries (message e) path /\
      carries (message e) (pretty (status r)) /\ carries (message e) (text r)) /\
  (forall (op : operation) r w,
      fetch P (op_request this op) = Response r ->
      ok r = false ->
      run P this op w
        = (Throws (Client.api_error (op_method op) (op_path op) r),
           log_request (op_request this op) w)) /\
  (forall path params responseKey fuel page allItems r w,
      fetch P (page_request this path params page) = Response r ->
      ok r = false ->
      Client.getPaginated_loop P this path params responseKey (S fuel) page
        allItems w
        = Some (Throws (Client.api_error "GET" path r),
                log_request (page_request this path params page) w)).
Proof.
  repeat split.
  - rewrite request_runs, H. now rewrite settle_not_ok.
  - apply api_error_carries.
  - apply api_error_carries.
  - apply api_error_carries.
  - apply api_error_carries.
  - intros op r w H Hok. rewrite run_is_request, H. now rewrite settle_not_ok.
  - intros path params responseKey fuel page allItems r w H Hok.
    rewrite loop_step. unfold page_yield, page_response.
    rewrite H, settle_not_ok by exact Hok. reflexivity.
Qed.

Lemma non_success_response_is_error_witness :
  run (always 404 "no such invoice") a_client (Delete "Invoices/77") just_started
    = (Throws (Error "Xero API error DELETE /Invoices/77 (404): no such invoice"),
       log_request (op_request a_client (Delete "Invoices/77")) just_started) /\
  Client.getPaginated_loop (always 503 "try later") a_client "Invoices" None
    None 4 3 [JNull] just_started
    = Some (Throws (Error "Xero API error GET /Invoices (503): try later"),
            log_request (page_request a_client "Invoices" None 3) just_started).
Proof.
  split.
  - apply (proj1 (proj2 (non_success_response_is_error
                           (always 404 "no such invoice") a_client))
             (Delete "Invoices/77") _ just_started eq_refl eq_refl).
  - apply (proj2 (proj2 (non_success_response_is_error
                           (always 503 "try later") a_client))
             "Invoices" None None 3 3 [JNull] _ just_started eq_refl eq_refl).
Defined.

(** C9, as the code has it. For each of the single-request operations
    [get], [post], [put] and [delete], a response with status 204 makes the
    call return [null], which is not the empty object, and nothing is
    thrown. *)
Theorem no_content_yields_null (P : platform) (this : XeroClient)
    (op : operation) r w :
  fetch P (op_request this op) = Response r ->
  status r = 204%N ->
  run P this op w = (Returns JNull, log_request (op_request this op) w) /\
  JNull <> JObj [].
Proof.
  intros H H204. split; [|discriminate].
  rewrite run_is_request, H. now rewrite settle_no_content.
Qed.

Lemma no_content_yields_null_witness :
  run (always 204 EmptyString) a_client
    (Post "Invoices/77" (Some (JObj [("Status", JStr "VOIDED")]))) just_started
    = (Returns JNull,
       log_request
         (op_request a_client
            (Post "Invoices/77" (Some (JObj [("Status", JStr "VOIDED")]))))
         just_started) /\
  JNull <> JObj [].
Proof.
  apply (no_content_yields_null (always 204 EmptyString) a_client
           (Post "Invoices/77" (Some (JObj [("Status", JStr "VOIDED")])))
           _ just_started eq_refl eq_refl).
Defined.

(** C9, as stated, fails for the fifth client operation: [getPaginated]
    reads a field of the [null] that [get] returns for a 204 page, so the
    call throws a [TypeError] instead of yielding a null result. *)
Lemma getPaginated_throws_on_no_content :
  (exists r,
     fetch (always 204 EmptyString) (page_request a_client "Invoices" None 1)
       = Response r /\ status r = 204%N) /\
  Client.getPaginated (always 204 EmptyString) a_client "Invoices" None
    (Some "Invoices") 1 just_started
    = Some (Throws (TypeError "Cannot read properties of null (reading 'Invoices')"),
            log_request (page_request a_client "Invoices" None 1) just_started) /\
  Client.getPaginated (always 204 EmptyString) a_client "Invoices" None
    None 1 just_started
    = Some (Throws (TypeError "Cannot convert undefined or null to object"),
            log_request (page_request a_client "Invoices" None 1) just_started).
Proof. split; [eexists; split; reflexivity | split; reflexivity]. Qed.

(** ** Pagination *)

(** The code picks the array the specification speaks of, an empty field
    name counting as none. *)
Lemma page_items_array_field (P : platform) responseKey fields a :
  array_field (given_name responseKey) fields = Some a ->
  Client.page_items P responseKey (JObj fields) = Client.array_items a.
Proof.
  destruct responseKey as [k|]; simpl.
  - destruct (String.eqb k EmptyString); simpl.
    + intros H. now rewrite H.
    + destruct (Js.get k fields) as [[]|]; try discriminate.
      intros H. now inversion H.
  - intros H. now rewrite H.
Qed.

(** A run of full pages followed by a short one: the loop requests each of
    them once, in order, and returns their items appended to [acc]. *)
Lemma loop_concat (P : platform) this path params responseKey
    (full : list (list json)) (last : list json) :
  Forall (fun a => Client.XERO_PAGE_SIZE <= length a) full ->
  length last < Client.XERO_PAGE_SIZE ->
  forall page acc w fuel,
    (forall i a, (full ++ [last]) !! i = Some a ->
       page_yield P this path params responseKey (page + i)
         = Client.array_items a) ->
    length full + 1 <= fuel ->
    Client.getPaginated_loop P this path params responseKey fuel page acc w
      = Some (Returns (acc ++ concat (full ++ [last])),
              log_requests
                (map (page_request this path params)
                   (seq page (length full + 1))) w).
Proof.
  intros Hfull Hlast. induction Hfull as [|a full Ha Hfull IH];
    intros page acc w fuel Hpages Hfuel.
  - destruct fuel as [|fuel]; [simpl in Hfuel; lia|].
    rewrite loop_step. cbv zeta.
    rewrite <- (Nat.add_0_r page) at 1. rewrite (Hpages 0 last eq_refl).
    destruct last as [|x last]; unfold Client.array_items.
    + simpl. now rewrite app_nil_r.
    + replace (Client.XERO_PAGE_SIZE <=? length (x :: last)) with false
        by (symmetry; apply Nat.leb_gt; exact Hlast).
      simpl. now rewrite app_nil_r.
  - destruct fuel as [|fuel]; [simpl in Hfuel; lia|].
    rewrite loop_step. cbv zeta.
    rewrite <- (Nat.add_0_r page) at 1. rewrite (Hpages 0 a eq_refl).
    destruct a as [|x a]; [unfold Client.XERO_PAGE_SIZE in Ha; simpl in Ha; lia|].
    unfold Client.array_items.
    replace (Client.XERO_PAGE_SIZE <=? length (x :: a)) with true
      by (symmetry; apply Nat.leb_le; exact Ha).
    rewrite (IH (S page) (acc ++ x :: a)
               (log_request (page_request this path params page) w) fuel).
    + rewrite log_requests_cons. simpl. now rewrite <- app_assoc.
    + intros i b Hb. replace (S page + i) with (page + S i) by lia.
      apply Hpages. exact Hb.
    + simpl in Hfuel. lia.
Qed.

(** A completed run has requested the pages from its first one on, in
    order, and every requested page but the last was not short. *)
Lemma loop_trace (P : platform) this path params responseKey :
  forall fuel page acc w result w',
    Client.getPaginated_loop P this path params responseKey fuel page acc w
      = Some (result, w') ->
    exists m,
      1 <= m /\ m <= fuel /\
      w' = log_requests (map (page_request this path params) (seq page m)) w /\
      forall k, page <= k -> k + 1 < page + m ->
        short (page_yield P this path params responseKey k) = false.
Proof.
  induction fuel as [|fuel IH]; intros page acc w result w' H; [discriminate|].
  rewrite loop_step in H. cbv zeta in H.
  destruct (page_yield P this path params responseKey page) as [|items n|e] eqn:Y.
  - inversion H; subst. exists 1. repeat split; lia.
  - destruct (Client.XERO_PAGE_SIZE <=? n) eqn:Hn.
    + apply IH in H as (m & Hm1 & Hm2 & -> & Hk).
      exists (S m). repeat split; try lia.
      * now rewrite log_requests_cons.
      * intros k Hk1 Hk2. destruct (decide (k = page)) as [->|Hne].
        -- rewrite Y. simpl. apply Nat.ltb_ge. now apply Nat.leb_le.
        -- apply Hk; lia.
    + inversion H; subst. exists 1. repeat split; lia.
  - inversion H; subst. exists 1. repeat split; lia.
Qed.

(** The loop ends by the first short page at the latest. *)
Lemma loop_terminates (P : platform) this path params responseKey (N : nat) :
  short (page_yield P this path params responseKey N) = true ->
  forall fuel page acc w,
    page <= N -> N + 1 <= page + fuel ->
    exists result w',
      Client.getPaginated_loop P this path params responseKey fuel page acc w
        = Some (result, w').
Proof.
  intros Hshort. induction fuel as [|fuel IH]; intros page acc w Hp Hf; [lia|].
  rewrite loop_step. cbv zeta.
  destruct (page_yield P this path params responseKey page) as [|items n|e] eqn:Y;
    [eauto | | eauto].
  destruct (Client.XERO_PAGE_SIZE <=? n) eqn:Hn; [|eauto].
  assert (page <> N) as Hne.
  { intros ->. rewrite Y in Hshort. simpl in Hshort.
    apply Nat.ltb_lt in Hshort. apply Nat.leb_le in Hn. lia. }
  apply IH; lia.
Qed.

(** C2, as the code has it. From page 1 on, [getPaginated] issues one [get]
    per page with the page numbers 1, 2, 3, ... in the query, takes from each
    page body the array-valued field named by the caller when that name is
    not empty or, when the caller gives no name or the empty string, the
    first array-valued field, and returns these arrays concatenated in page
    order: over full pages followed by a short one, the request log grows by
    exactly those page requests. *)
Theorem getPaginated_concatenates_pages (P : platform) (this : XeroClient)
    (path : string) (params : option (list (string * string)))
    (responseKey : option string)
    (pages : list (list (string * json)))
    (full : list (list json)) (last : list json) (fuel : nat) (w : world) :
  (forall i fields, pages !! i = Some fields ->
     page_response P this path params (S i) = Returns (JObj fields)) ->
  array_field (given_name responseKey) <$> pages = Some <$> (full ++ [last]) ->
  Forall (fun a => Client.XERO_PAGE_SIZE <= length a) full ->
  length last < Client.XERO_PAGE_SIZE ->
  length pages <= fuel ->
  Client.getPaginated P this path params responseKey fuel w
    = Some (Returns (concat (full ++ [last])),
            log_requests
              (map (page_request this path params) (seq 1 (length pages))) w).
Proof.
  intros Hserved Hfields Hfull Hlast Hfuel.
  assert (length pages = length full + 1) as Hlen.
  { apply (f_equal length) in Hfields.
    rewrite !length_fmap, length_app in Hfields. exact Hfields. }
  unfold Client.getPaginated. rewrite Hlen.
  apply (loop_concat P this path params responseKey full last Hfull Hlast
           1 [] w fuel); [|lia].
  intros i a Ha.
  assert ((array_field (given_name responseKey) <$> pages) !! i = Some (Some a))
    as Hi by (rewrite Hfields, list_lookup_fmap, Ha; reflexivity).
  rewrite list_lookup_fmap in Hi.
  destruct (pages !! i) as [fields|] eqn:Hp; [|discriminate].
  simpl in Hi. injection Hi as Hi.
  unfold page_yield. change (1 + i) with (S i).
  rewrite (Hserved i fields Hp).
  now apply page_items_array_field.
Qed.

(** C2, as stated, fails when the caller names the field by the empty
    string: the body has an array-valued field of that name, yet the call
    returns the first array-valued field of the body. *)
Lemma getPaginated_empty_name_takes_first_array :
  let fields := [("Invoices", JArr [JStr "INV-1"]);
                 (EmptyString, JArr [JStr "other"])] in
  page_response (serving fields) a_client "Invoices" None 1
    = Returns (JObj fields) /\
  array_field (Some EmptyString) fields = Some [JStr "other"] /\
  Client.getPaginated (serving fields) a_client "Invoices" None
    (Some EmptyString) 1 just_started
    = Some (Returns [JStr "INV-1"],
            log_request (page_request a_client "Invoices" None 1) just_started).
Proof. repeat split. Qed.

(** C5. If page request [N] yields fewer than 100 items, possibly none,
    then [getPaginated] terminates, within [N] turns of its loop, and a
    completed call has requested the pages 1 to [m] for some [m <= N]: no
    page after [N] is ever requested. *)
Theorem getPaginated_stops_at_short_page (P : platform) (this : XeroClient)
    (path : string) (params : option (list (string * string)))
    (responseKey : option string) (N : nat) (w : world) :
  1 <= N ->
  short (page_yield P this path params responseKey N) = true ->
  (forall fuel, N <= fuel ->
     exists result w',
       Client.getPaginated P this path params responseKey fuel w
         = Some (result, w')) /\
  (forall fuel result w',
     Client.getPaginated P this path params responseKey fuel w
       = Some (result, w') ->
     exists m,
       m <= N /\
       w' = log_requests
              (map (page_request this path params) (seq 1 m)) w).
Proof.
  intros HN Hshort. split.
  - intros fuel Hfuel. unfold Client.getPaginated.
    apply (loop_terminates P this path params responseKey N Hshort); lia.
  - intros fuel result w' H. unfold Client.getPaginated in H.
    apply loop_trace in H as (m & Hm1 & Hm2 & -> & Hk).
    exists m. split; [|reflexivity].
    destruct (decide (m <= N)) as [|Hgt]; [assumption|].
    rewrite (Hk N) in Hshort by lia. discriminate.
Qed.

Lemma getPaginated_concatenates_pages_witness :
  exists items w',
    Client.getPaginated (paged [100; 100; 37]) a_client "Invoices" None
      (Some "Invoices") 3 just_started = Some (Returns items, w') /\
    length items = 237 /\
    map params (requests w')
      = [[("page", "1")]; [("page", "2")]; [("page", "3")]].
Proof.
  eexists _, _. split.
  - apply (getPaginated_concatenates_pages (paged [100; 100; 37]) a_client
             "Invoices" None (Some "Invoices")
             [invoices_fields 100; invoices_fields 100; invoices_fields 37]
             [invoices_array 100; invoices_array 100] (invoices_array 37)
             3 just_started).
    + intros [|[|[|i]]] fields H; simpl in H; try discriminate;
        injection H as <-; vm_compute; reflexivity.
    + vm_compute; reflexivity.
    + repeat constructor; apply Nat.leb_le; vm_compute; reflexivity.
    + apply Nat.ltb_lt; vm_compute; reflexivity.
    + simpl; lia.
  - vm_compute. repeat split.
Defined.

Lemma getPaginated_stops_at_short_page_witness :
  (exists result w',
     Client.getPaginated (paged [100; 100; 100; 12]) a_client "Invoices" None
       None 4 just_started = Some (result, w')) /\
  (forall fuel result w',
     Client.getPaginated (paged [100; 100; 100; 12]) a_client "Invoices" None
       None fuel just_started = Some (result, w') ->
     exists m,
       m <= 4 /\
       w' = log_requests
              (map (page_request a_client "Invoices" None) (seq 1 m))
              just_started).
Proof.
  assert (1 <= 4) as HN by lia.
  assert (short (page_yield (paged [100; 100; 100; 12]) a_client "Invoices"
                   None None 4) = true) as Hshort by (vm_compute; reflexivity).
  destruct (getPaginated_stops_at_short_page (paged [100; 100; 100; 12])
              a_client "Invoices" None None 4 just_started HN Hshort)
    as [Hends Hlog].
  split; [apply Hends; lia | exact Hlog].
Defined.

(** Three full pages and a short fourth: four requests, every item kept. *)
Example full_pages_then_short_page :
  exists items w',
    Client.getPaginated (paged [100; 100; 100; 12]) a_client "Invoices" None
      None 50 just_started = Some (Returns items, w') /\
    length items = 312 /\
    map params (requests w')
      = [[("page", "1")]; [("page", "2")]; [("page", "3")]; [("page", "4")]].
Proof. eexists _, _. vm_compute. repeat split. Qed.

(** Exactly three full pages: the fourth request finds an empty page and
    the call returns the 300 items. *)
Example full_pages_only :
  exists items w',
    Client.getPaginated (paged [100; 100; 100]) a_client "Invoices" None
      (Some "Invoices") 50 just_started = Some (Returns items, w') /\
    length items = 300 /\ length (requests w') = 4.
Proof. eexists _, _. vm_compute. repeat split. Qed.

(** ** The HTTP host in gateway mode *)

Lemma absent_or_empty_falsy (v : option string) :
  absent_or_empty v -> truthy_string v = false.
Proof. intros [-> | ->]; reflexivity. Qed.

Lemma non_empty_truthy (s : string) :
  s <> EmptyString -> truthy_string (Some s) = true.
Proof.
  intros H. simpl. apply negb_true_iff. now apply String.eqb_neq.
Qed.

(** C1, as the code has it. In gateway mode a request to [/mcp] in which
    either credential header is absent or empty is answered with status 401
    and a body whose [required] lists both header names; it is not handed to
    the protocol transport and the process state is untouched. When both
    headers carry a non-empty value, the cached client is dropped and
    [process.env] is overwritten with the pair before the request is handed
    on, so that the next [getClient] builds a client holding exactly that
    token and tenant id, which it sends with every call. *)
Theorem gateway_swaps_credentials (now : string) (req : IncomingMessage)
    (w : world) :
  pathname req = "/mcp" ->
  (absent_or_empty (req_headers req !! "x-xero-access-token") \/
   absent_or_empty (req_headers req !! "x-xero-tenant-id") ->
   requestListener true now req w = (Respond 401 missing_credentials, w) /\
   field "required" missing_credentials
     = Some (JArr [JStr "X-Xero-Access-Token"; JStr "X-Xero-Tenant-Id"])) /\
  (forall token tenant,
     req_headers req !! "x-xero-access-token" = Some token ->
     token <> EmptyString ->
     req_headers req !! "x-xero-tenant-id" = Some tenant ->
     tenant <> EmptyString ->
     let client := {| config := {| accessToken := token; tenantId := tenant |} |} in
     exists w',
       requestListener true now req w = (HandleRequest, w') /\
       _client w' = None /\
       env w' !! "XERO_ACCESS_TOKEN" = Some token /\
       env w' !! "XERO_TENANT_ID" = Some tenant /\
       state w' = state w /\
       Client.getClient w' = (Returns client, set_client (Some client) w') /\
       Js.get "Authorization" (Client.request_headers client)
         = Some ("Bearer " +:+ token) /\
       Js.get "xero-tenant-id" (Client.request_headers client) = Some tenant).
Proof.
  intros Hpath. unfold requestListener. rewrite Hpath.
  change (String.eqb "/mcp" "/health") with false.
  change (String.eqb "/mcp" "/mcp") with true. cbv iota.
  split.
  - intros Hmissing. split; [|reflexivity].
    assert (negb (truthy_string (req_headers req !! "x-xero-access-token"))
            || negb (truthy_string (req_headers req !! "x-xero-tenant-id"))
            = true) as ->; [|reflexivity].
    destruct Hmissing as [H | H]; rewrite (absent_or_empty_falsy _ H);
      [reflexivity | apply orb_true_r].
  - intros token tenant Htoken Hne1 Htenant Hne2.
    rewrite Htoken, Htenant.
    rewrite (non_empty_truthy token Hne1), (non_empty_truthy tenant Hne2).
    cbn [negb orb default snd Client.resetClient modify].
    eexists. split; [reflexivity|].
    assert (forall e : gmap string string,
              <["XERO_TENANT_ID" := tenant]> (<["XERO_ACCESS_TOKEN" := token]> e)
                !! "XERO_ACCESS_TOKEN" = Some token) as Ha
      by (intros e; rewrite lookup_insert_ne by discriminate;
          apply lookup_insert_eq).
    assert (forall e : gmap string string,
              <["XERO_TENANT_ID" := tenant]> (<["XERO_ACCESS_TOKEN" := token]> e)
                !! "XERO_TENANT_ID" = Some tenant) as Ht
      by (intros e; apply lookup_insert_eq).
    repeat split.
    + apply Ha.
    + apply Ht.
    + unfold Client.getClient. cbn [_client set_env set_client env].
      rewrite Ha, Ht.
      rewrite (non_empty_truthy token Hne1), (non_empty_truthy tenant Hne2).
      reflexivity.
Qed.

Lemma gateway_swaps_credentials_witness :
  let req := {| pathname := "/mcp";
                req_headers := <["x-xero-access-token" := "token-B"]>
                                 (<["x-xero-tenant-id" := "tenant-B"]> ∅) |} in
  let bare := {| pathname := "/mcp";
                 req_headers := <["x-xero-access-token" := "token-B"]> ∅ |} in
  requestListener true "2026-01-01T00:00:00.000Z" bare serving_A
    = (Respond 401 missing_credentials, serving_A) /\
  exists w',
    requestListener true "2026-01-01T00:00:00.000Z" req serving_A
      = (HandleRequest, w') /\
    fst (Client.getClient w')
      = Returns {| config := {| accessToken := "token-B";
                                tenantId := "tenant-B" |} |}.
Proof.
  intros req bare. split.
  - apply (proj1 (gateway_swaps_credentials "2026-01-01T00:00:00.000Z" bare
                    serving_A eq_refl)).
    right. left. reflexivity.
  - destruct (proj2 (gateway_swaps_credentials "2026-01-01T00:00:00.000Z" req
                       serving_A eq_refl)
                "token-B" "tenant-B" eq_refl ltac:(discriminate)
                eq_refl ltac:(discriminate))
      as (w' & Hrun & _ & _ & _ & _ & Hclient & _).
    exists w'. split; [exact Hrun|]. now rewrite Hclient.
Defined.

(** C1, as stated, fails when a header is present with an empty value: both
    headers are there, yet the request is answered 401 and the cached client
    of the previous tenant stays in place. *)
Lemma gateway_rejects_empty_header :
  let req := {| pathname := "/mcp";
                req_headers := <["x-xero-access-token" := EmptyString]>
                                 (<["x-xero-tenant-id" := "tenant-B"]> ∅) |} in
  req_headers req !! "x-xero-access-token" = Some EmptyString /\
  req_headers req !! "x-xero-tenant-id" = Some "tenant-B" /\
  requestListener true "2026-01-01T00:00:00.000Z" req serving_A
    = (Respond 401 missing_credentials, serving_A) /\
  _client serving_A = Some a_client.
Proof. repeat split. Qed.

(** * Further properties of the code *)

(** ** The shape of a domain handler *)

Lemma bind_run {A B : Type} (m : M A) (k : A -> M B) (w : world) :
  bind m k w
    = match m w with
      | (Returns a, w') => k a w'
      | (Throws e, w') => (Throws e, w')
      end.
Proof. reflexivity. Qed.

Lemma call_then_wrap (P : platform) c method path params body w :
  bind (Client.request P c method path params body)
       (fun response => ret (success response)) w
    = (wrap (Client.settle method path
               (fetch P (Client.build_request c method path params body))),
       log_request (Client.build_request c method path params body) w).
Proof.
  unfold bind, Client.request.
  destruct (Client.settle method path _); reflexivity.
Qed.

(** A handler first asks for the client. With a client in hand, a registered
    tool makes exactly one call with it, a [GET] without body or, outside the
    accounts and reports domains, a [POST]; any other name gets the handler's
    unknown-tool result and no call is made. *)
Lemma handler_shape (P : platform) (d : Domain) name args w :
  match Client.getClient w with
  | (Throws e, w1) => handler_of P d name args w = (Throws e, w1)
  | (Returns c, w1) =>
      if registered d name then
        exists method path params body,
          (method = "GET" /\ body = None \/
           method = "POST" /\ d <> accounts /\ d <> reports) /\
          handler_of P d name args w
            = (wrap (Client.settle method path
                       (fetch P (Client.build_request c method path params body))),
               log_request (Client.build_request c method path params body) w1)
      else
        handler_of P d name args w
          = (Returns (failure ("Unknown " +:+ domain_noun d +:+ " tool: " +:+ name)),
             w1)
  end.
Proof.
  destruct d; cbn [handler_of];
    [ unfold handleContactTool | unfold handleInvoiceTool
    | unfold handlePaymentTool | unfold handleAccountTool
    | unfold handleReportTool ];
    rewrite bind_run; destruct (Client.getClient w) as [[c|e] w1];
    try reflexivity;
    unfold registered;
    cbn [existsb map tools_of contactTools invoiceTools paymentTools
           accountTools reportTools Domains.name];
    repeat match goal with
      | |- context [String.eqb name ?l] => destruct (String.eqb name l)
      end;
    cbn [orb]; cbv zeta;
    try reflexivity;
    eexists _, _, _, _;
    (split; [| unfold Client.get, Client.post; apply call_then_wrap ]);
    first [ left; split; reflexivity | right; repeat split; discriminate ].
Qed.

(** ** The cached client *)

Lemma truthy_string_spec (v : option string) :
  truthy_string v = false <-> absent_or_empty v.
Proof.
  split.
  - destruct v as [s|]; simpl; [|left; reflexivity].
    intros H. apply negb_false_iff, String.eqb_eq in H. right. now subst.
  - apply absent_or_empty_falsy.
Qed.

Lemma truthy_string_value (v : option string) :
  truthy_string v = true -> v = Some (default EmptyString v).
Proof. destruct v; [reflexivity | discriminate]. Qed.

Lemma getClient_cached (w : world) (c : XeroClient) :
  _client w = Some c -> Client.getClient w = (Returns c, w).
Proof. intros H. unfold Client.getClient. now rewrite H. Qed.

Lemma getClient_missing (w : world) :
  _client w = None ->
  truthy_string (env w !! "XERO_ACCESS_TOKEN") = false \/
  truthy_string (env w !! "XERO_TENANT_ID") = false ->
  Client.getClient w = (Throws Client.credentials_error, w).
Proof.
  intros Hc H. unfold Client.getClient. rewrite Hc.
  destruct H as [-> | ->]; [reflexivity | now rewrite orb_true_r].
Qed.

Lemma getClient_built (w : world) :
  _client w = None ->
  truthy_string (env w !! "XERO_ACCESS_TOKEN") = true ->
  truthy_string (env w !! "XERO_TENANT_ID") = true ->
  let c := {| config :=
                {| accessToken := default EmptyString (env w !! "XERO_ACCESS_TOKEN");
                   tenantId := default EmptyString (env w !! "XERO_TENANT_ID") |} |} in
  Client.getClient w = (Returns c, set_client (Some c) w).
Proof.
  intros Hc Ha Ht. unfold Client.getClient. now rewrite Hc, Ha, Ht.
Qed.

(** What [getClient] does to the process: nothing but filling an empty
    cache with the client it returns. *)
Lemma getClient_world (w : world) :
  match Client.getClient w with
  | (Returns c, w1) =>
      w1 = set_client (Some c) w /\ (forall c0, _client w = Some c0 -> c0 = c)
  | (Throws e, w1) =>
      w1 = w /\ e = Client.credentials_error /\ _client w = None
  end.
Proof.
  unfold Client.getClient. destruct (_client w) as [c0|] eqn:Hc.
  - split; [|intros ? [= ->]; reflexivity].
    destruct w; simpl in *. now subst.
  - destruct (negb _ || negb _); repeat split; congruence.
Qed.

(** [getClient] succeeds exactly when a client is cached or both credentials
    are set to non-empty values in [process.env]; otherwise it throws the
    credentials error and leaves the process as it was, the cache still
    empty. *)
Theorem getClient_succeeds_iff (w : world) :
  ((exists c w', Client.getClient w = (Returns c, w')) <->
   (is_Some (_client w) \/
    (truthy_string (env w !! "XERO_ACCESS_TOKEN") = true /\
     truthy_string (env w !! "XERO_TENANT_ID") = true))) /\
  ((exists c w', Client.getClient w = (Returns c, w')) \/
   Client.getClient w = (Throws Client.credentials_error, w)).
Proof.
  split; [split|].
  - intros (c & w' & H).
    destruct (_client w) as [c0|] eqn:Hc; [left; eauto|]. right.
    destruct (truthy_string (env w !! "XERO_ACCESS_TOKEN")) eqn:Ha;
      destruct (truthy_string (env w !! "XERO_TENANT_ID")) eqn:Ht;
      try (split; reflexivity);
      rewrite getClient_missing in H by auto; discriminate.
  - intros [[c Hc] | [Ha Ht]].
    + exists c, w. now apply getClient_cached.
    + destruct (_client w) as [c0|] eqn:Hc.
      * exists c0, w. now apply getClient_cached.
      * eexists _, _. now apply getClient_built.
  - pose proof (getClient_world w) as Hw.
    destruct (Client.getClient w) as [[c|e] w1].
    + left. eauto.
    + right. destruct Hw as (-> & -> & _). reflexivity.
Qed.

(** Once [getClient] has returned a client, that client is returned again
    whatever [process.env] is changed to: new credentials are picked up only
    after [resetClient]. *)
Theorem cached_client_outlives_env (w w' : world) (c : XeroClient)
    (e : gmap string string) :
  Client.getClient w = (Returns c, w') ->
  Client.getClient (set_env e w') = (Returns c, set_env e w') /\
  _client (snd (Client.resetClient (set_env e w'))) = None.
Proof.
  intros H. split; [|reflexivity].
  pose proof (getClient_world w) as Hw. rewrite H in Hw.
  destruct Hw as [-> _]. now apply getClient_cached.
Qed.

Lemma cached_client_outlives_env_witness :
  let e : gmap string string :=
    <["XERO_ACCESS_TOKEN" := "token-B"]> (<["XERO_TENANT_ID" := "tenant-B"]> ∅) in
  Client.getClient (set_env e serving_A) = (Returns a_client, set_env e serving_A) /\
  _client (snd (Client.resetClient (set_env e serving_A))) = None.
Proof.
  intros e.
  apply (cached_client_outlives_env serving_A serving_A a_client e).
  reflexivity.
Defined.

(** ** Tool tables and dispatch *)


Lemma prefix_is_domain_tool (d : Domain) (name : string) :
  String.prefix (domain_prefix d) name = true -> is_domain_tool name = true.
Proof.
  intros H. unfold is_domain_tool. rewrite existsb_exists.
  exists d. split; [destruct d; simpl; tauto | exact H].
Qed.

Lemma callTool_routed (P : platform) (d : Domain) name args w :
  String.prefix (domain_prefix d) name = true ->
  callTool P name args w
    = (Returns (caught (fst (handler_of P d name (default [] args) w))),
       snd (handler_of P d name (default [] args) w)).
Proof.
  intros H. unfold callTool. rewrite (routes_to_handler P d name args H).
  unfold try_catch, on_error, ret.
  destruct (handler_of P d name (default [] args) w) as [[r|e] w']; reflexivity.
Qed.


(** A domain tool called in a process without credentials (no cached client
    and an access token or tenant id that is unset or empty) gets an error
    result naming the two environment variables; no call is made and the
    process is as before. This holds for every name with a domain prefix,
    registered or not: the credentials are looked at first. *)
Theorem tool_call_without_credentials (P : platform) name args w :
  is_domain_tool name = true ->
  _client w = None ->
  absent_or_empty (env w !! "XERO_ACCESS_TOKEN") \/
  absent_or_empty (env w !! "XERO_TENANT_ID") ->
  callTool P name args w
    = (Returns (failure ("Error: " +:+ message Client.credentials_error)), w).
Proof.
  intros Hdom Hc Hmissing.
  destruct (domain_tool_routes _ Hdom) as [d Hd].
  rewrite (callTool_routed P d name args w Hd).
  pose proof (handler_shape P d name (default [] args) w) as Hs.
  rewrite getClient_missing in Hs; [now rewrite Hs | exact Hc |].
  destruct Hmissing as [H|H]; [left|right]; now apply truthy_string_spec.
Qed.

Lemma tool_call_without_credentials_witness :
  callTool (paged [3]) "xero_reports_balance_sheet"
    (Some [("date", JStr "2026-03-31")]) just_started
    = (Returns (failure ("Error: " +:+ message Client.credentials_error)),
       just_started).
Proof.
  apply (tool_call_without_credentials (paged [3]) "xero_reports_balance_sheet"
           (Some [("date", JStr "2026-03-31")]) just_started);
    [reflexivity | reflexivity | left; left; reflexivity].
Defined.

(** With a client cached, a name that has a domain's prefix but is not one
    of the tools registered for that domain gets that handler's unknown-tool
    result, error-flagged; no call is made and the process is as before. *)
Theorem unregistered_tool_is_rejected (P : platform) (d : Domain) name args w c :
  String.prefix (domain_prefix d) name = true ->
  registered d name = false ->
  _client w = Some c ->
  callTool P name args w
    = (Returns (failure ("Unknown " +:+ domain_noun d +:+ " tool: " +:+ name)), w).
Proof.
  intros Hd Hreg Hc. rewrite (callTool_routed P d name args w Hd).
  pose proof (handler_shape P d name (default [] args) w) as Hs.
  rewrite (getClient_cached w c Hc), Hreg in Hs. now rewrite Hs.
Qed.

Lemma unregistered_tool_is_rejected_witness :
  callTool (paged [3]) "xero_invoices_delete" (Some [("invoiceId", JStr "9a1c")])
    serving_A
    = (Returns (failure "Unknown invoice tool: xero_invoices_delete"), serving_A).
Proof.
  apply (unregistered_tool_is_rejected (paged [3]) invoices "xero_invoices_delete"
           (Some [("invoiceId", JStr "9a1c")]) serving_A a_client);
    reflexivity.
Defined.



Lemma as_domain_of_name (d : Domain) :
  as_domain (Some (JStr (domain_name d))) = Some d.
Proof. destruct d; reflexivity. Qed.

Lemma as_domain_none (v : value) :
  (forall d, v <> Some (JStr (domain_name d))) -> as_domain v = None.
Proof.
  intros H. destruct (as_domain v) as [d|] eqn:E; [|reflexivity].
  exfalso. apply (H d). now apply as_domain_name.
Qed.

(** The ListTools handler returns a listing exactly in the navigation states
    [ROOT] and [IN_DOMAIN d]; in any other state it throws a [TypeError]. *)
Theorem listTools_returns_iff (s : ServerState) :
  ((exists tools, listTools s = Returns tools) <-> well_formed s) /\
  ((exists tools, listTools s = Returns tools) \/
   listTools s = Throws (TypeError
     "Spread syntax requires ...iterable[Symbol.iterator] to be a function")).
Proof.
  destruct s as [v]. unfold listTools, getDomainTools. cbn [currentDomain].
  destruct v as [[| b | c | str | l | fs]|];
    try (split;
         [ split;
           [ intros [? H]; discriminate H
           | intros [H | [d H]]; [discriminate H | destruct d; discriminate H] ]
         | right; reflexivity ]).
  - split; [|left; eauto]. split; [intros _; left; reflexivity | eauto].
  - destruct (as_domain (Some (JStr str))) as [d|] eqn:E; simpl.
    + apply as_domain_name in E. injection E as ->.
      split; [|left; eauto].
      split; [intros _; right; exists d; reflexivity | eauto].
    + split; [|right; reflexivity].
      split; [intros [? H]; discriminate H|].
      intros [H | [d H]]; [discriminate H|].
      injection H as ->. now rewrite as_domain_of_name in E.
Qed.

(** The three ways a navigate call ends. With a [domain] argument that is one
    of the five literals it enters that domain and names the domain's tools;
    with no arguments object it returns an error result and leaves the state
    alone; with any other [domain], or none in the object, it returns an
    error result and the state holds what was passed. No call is made and
    nothing else changes. *)
Theorem navigate_outcome (P : platform) (w : world) :
  (forall fields d,
     Js.get "domain" fields = Some (JStr (domain_name d)) ->
     callTool P "xero_navigate" (Some fields) w
       = (Returns (navigated d), set_state (IN_DOMAIN d) w)) /\
  callTool P "xero_navigate" None w
    = (Returns (failure
         "Error: Cannot destructure property 'domain' of 'args' as it is undefined."),
       w) /\
  (forall fields,
     (forall d, Js.get "domain" fields <> Some (JStr (domain_name d))) ->
     callTool P "xero_navigate" (Some fields) w
       = (Returns (failure
            "Error: Cannot read properties of undefined (reading 'map')"),
          set_state {| currentDomain := Js.get "domain" fields |} w)).
Proof.
  split; [|split; [reflexivity|]].
  - intros fields d H.
    unfold callTool, try_catch, callTool_body, bind, modify, getDomainTools.
    simpl. rewrite H, as_domain_of_name. destruct d; reflexivity.
  - intros fields H.
    unfold callTool, try_catch, callTool_body, bind, modify, getDomainTools.
    simpl. now rewrite (as_domain_none _ H).
Qed.

Lemma navigate_outcome_witness :
  callTool (paged []) "xero_navigate"
    (Some [("verbose", JBool true); ("domain", JStr "payments")]) serving_A
    = (Returns (navigated payments), set_state (IN_DOMAIN payments) serving_A) /\
  callTool (paged []) "xero_navigate" (Some [("Domain", JStr "payments")])
    serving_A
    = (Returns (failure
         "Error: Cannot read properties of undefined (reading 'map')"),
       set_state {| currentDomain := None |} serving_A).
Proof.
  pose proof (navigate_outcome (paged []) serving_A) as (Hin & _ & Hout).
  split.
  - apply (Hin [("verbose", JBool true); ("domain", JStr "payments")] payments).
    reflexivity.
  - apply (Hout [("Domain", JStr "payments")]). intros d. discriminate.
Defined.

(** What a CallTool request never does, whatever the name and arguments: it
    never throws, never changes [process.env], never replaces a cached
    client, and never makes more than one call to the API. *)
Theorem callTool_footprint (P : platform) name args w :
  (exists result, fst (callTool P name args w) = Returns result) /\
  env (snd (callTool P name args w)) = env w /\
  (forall c, _client w = Some c ->
     _client (snd (callTool P name args w)) = Some c) /\
  (requests (snd (callTool P name args w)) = requests w \/
   exists req, requests (snd (callTool P name args w)) = requests w ++ [req]).
Proof.
  destruct (String.eqb_spec name "xero_navigate") as [->|Hnav].
  - destruct args as [fields|]; [|repeat split; eauto].
    unfold callTool, try_catch, callTool_body, bind, modify. simpl.
    destruct (getDomainTools (Js.get "domain" fields)); repeat split; eauto.
  - destruct (String.eqb_spec name "xero_back") as [->|Hback];
      [repeat split; eauto|].
    destruct (is_domain_tool name) eqn:Hdom.
    + destruct (domain_tool_routes _ Hdom) as [d Hd].
      rewrite (callTool_routed P d name args w Hd).
      pose proof (handler_shape P d name (default [] args) w) as Hs.
      pose proof (getClient_world w) as Hw.
      destruct (Client.getClient w) as [[c|e] w1].
      * destruct Hw as [-> Hsame].
        destruct (registered d name).
        -- destruct Hs as (method & path & params & body & _ & ->). simpl.
           repeat split; eauto.
           intros c0 Hc0. now rewrite (Hsame c0 Hc0).
        -- rewrite Hs. simpl. repeat split; eauto.
           intros c0 Hc0. now rewrite (Hsame c0 Hc0).
      * destruct Hw as (-> & _ & Hnone). rewrite Hs. simpl.
        repeat split; eauto.
    + rewrite (unrouted_is_unknown P name args w Hnav Hback Hdom).
      repeat split; eauto.
Qed.

(** ** The HTTP listener *)


(** What the request listener leaves alone, in either mode and on any path:
    the navigation state, the request log, and every variable of
    [process.env] other than the two credentials. Unless it hands the
    request to the protocol transport it changes nothing at all, and in env
    mode it never changes anything. *)
Theorem listener_footprint (mode : bool) (now : string)
    (req : IncomingMessage) (w : world) :
  state (snd (requestListener mode now req w)) = state w /\
  requests (snd (requestListener mode now req w)) = requests w /\
  (forall k, k <> "XERO_ACCESS_TOKEN" -> k <> "XERO_TENANT_ID" ->
     env (snd (requestListener mode now req w)) !! k = env w !! k) /\
  (fst (requestListener mode now req w) <> HandleRequest ->
     snd (requestListener mode now req w) = w) /\
  (mode = false -> snd (requestListener mode now req w) = w).
Proof.
  unfold requestListener.
  destruct (String.eqb (pathname req) "/health"); [repeat split|].
  destruct (String.eqb (pathname req) "/mcp"); [|repeat split].
  destruct mode; [|repeat split].
  destruct (negb _ || negb _); [repeat split|].
  cbn [fst snd]. repeat split.
  - intros k Ha Ht. cbn [env set_env Client.resetClient modify snd set_client].
    rewrite lookup_insert_ne by congruence.
    now rewrite lookup_insert_ne by congruence.
  - intros H. now contradiction H.
  - discriminate.
Qed.


Lemma or_else_is (v : option string) (d s : string) :
  s <> d -> s <> EmptyString -> (or_else v d = s <-> v = Some s).
Proof.
  intros Hd He. unfold or_else. destruct v as [x|]; [|split; congruence].
  destruct (String.eqb_spec x EmptyString) as [->|Hx]; split; congruence.
Qed.

(** The mode and the transport are what the environment names only when it
    names them exactly: gateway mode needs [AUTH_MODE] to be [gateway] and the
    HTTP transport needs [MCP_TRANSPORT] to be [http]; unset, empty or
    otherwise spelled values give env mode and stdio. In a host started
    without [AUTH_MODE=gateway] the listener never changes the process, never
    answers 401, and hands every request to [/mcp] on, whatever its headers. *)
Theorem modes_need_exact_names (env0 : gmap string string) :
  (isGatewayMode env0 = true <-> env0 !! "AUTH_MODE" = Some "gateway") /\
  (main env0 = StreamableHTTPServerTransport
     <-> env0 !! "MCP_TRANSPORT" = Some "http") /\
  (env0 !! "AUTH_MODE" <> Some "gateway" ->
   forall now req w,
     snd (listener env0 now req w) = w /\
     (forall payload, fst (listener env0 now req w) <> Respond 401 payload) /\
     (pathname req = "/mcp" -> fst (listener env0 now req w) = HandleRequest)).
Proof.
  assert (isGatewayMode env0 = true <-> env0 !! "AUTH_MODE" = Some "gateway")
    as Hg.
  { unfold isGatewayMode. cbv zeta. rewrite String.eqb_eq.
    apply or_else_is; discriminate. }
  split; [exact Hg|]. split.
  - unfold main. cbv zeta.
    destruct (String.eqb_spec (or_else (env0 !! "MCP_TRANSPORT") "stdio") "http")
      as [E|E].
    + split; [intros _|reflexivity]. now apply or_else_is in E.
    + split; [discriminate|]. intros H. exfalso. apply E.
      now apply or_else_is.
  - intros H now req w.
    assert (isGatewayMode env0 = false) as Hmode.
    { destruct (isGatewayMode env0) eqn:E; [|reflexivity].
      exfalso. apply H. now apply Hg. }
    unfold listener. rewrite Hmode. unfold requestListener.
    destruct (String.eqb_spec (pathname req) "/health") as [Hh|Hh].
    + repeat split; [discriminate | rewrite Hh; discriminate].
    + destruct (String.eqb_spec (pathname req) "/mcp") as [Hm|Hm];
        repeat split; try discriminate; congruence.
Qed.

Lemma modes_need_exact_names_witness :
  let env0 : gmap string string :=
    <["AUTH_MODE" := "Gateway"]> (<["MCP_TRANSPORT" := "http"]> ∅) in
  let req := {| pathname := "/mcp"; req_headers := ∅ |} in
  main env0 = StreamableHTTPServerTransport /\
  snd (listener env0 "2026-01-01T00:00:00.000Z" req serving_A) = serving_A /\
  fst (listener env0 "2026-01-01T00:00:00.000Z" req serving_A) = HandleRequest.
Proof.
  intros env0 req.
  pose proof (modes_need_exact_names env0) as (_ & Hmain & Hlisten).
  assert (env0 !! "AUTH_MODE" <> Some "gateway") as Hne by discriminate.
  destruct (Hlisten Hne "2026-01-01T00:00:00.000Z" req serving_A)
    as (Hw & _ & Hon).
  split; [apply Hmain; reflexivity|]. split; [exact Hw | now apply Hon].
Defined.



(** ** The client: single calls *)

(** [request] returns a value exactly when the response has a 2xx status and
    either is a 204, giving [null], or has a body that decodes, giving the
    decoded value. A 2xx response other than 204 whose body is not JSON makes
    it throw the parser's [SyntaxError]; a rejected [fetch] is passed on. In
    every case the call has been made. *)
Theorem request_returns_iff (P : platform) (this : XeroClient)
    (method path : string) (params : option (list (string * string)))
    (body : value) (w : world) :
  let call := Client.build_request this method path params body in
  let out := Client.request P this method path params body w in
  (forall v,
     fst out = Returns v <->
     exists r, fetch P call = Response r /\ ok r = true /\
               (status r = 204%N /\ v = JNull \/
                status r <> 204%N /\ json_body r = Parsed v)) /\
  (forall r m,
     fetch P call = Response r -> ok r = true -> status r <> 204%N ->
     json_body r = Malformed m -> fst out = Throws (SyntaxError m)) /\
  (forall e, fetch P call = Rejected e -> fst out = Throws e) /\
  snd out = log_request call w.
Proof.
  intros call out. subst out. rewrite request_runs. fold call. cbn [fst snd].
  split; [|split; [|split; [|reflexivity]]].
  - intros v. unfold Client.settle.
    destruct (fetch P call) as [r|e].
    + destruct (ok r) eqn:Hok; cbn [negb].
      * destruct (N.eqb_spec (status r) 204) as [H204|H204].
        -- split.
           ++ intros [= <-]. exists r. repeat split; auto.
           ++ intros (r' & [= <-] & _ & [[_ ->] | [H _]]);
                [reflexivity | contradiction].
        -- split.
           ++ intros H. exists r. repeat split; auto. right. split; [auto|].
              destruct (json_body r); [now injection H as -> | discriminate].
           ++ intros (r' & [= <-] & _ & [[H _] | [_ ->]]);
                [contradiction | reflexivity].
      * split; [discriminate|].
        intros (r' & [= <-] & H & _). congruence.
    + split; [discriminate | intros (r' & H & _); discriminate H].
  - intros r m -> Hok H204 Hbody. unfold Client.settle.
    rewrite Hok. cbn [negb].
    destruct (N.eqb_spec (status r) 204); [contradiction|]. now rewrite Hbody.
  - intros e ->. reflexivity.
Qed.

(** ** The client: pages *)

Lemma get_set_same {A : Type} (k : string) (v : A) (fields : list (string * A)) :
  Js.get k (Js.set k v fields) = Some v.
Proof.
  induction fields as [|[k' v'] rest IH]; simpl.
  - now rewrite String.eqb_refl.
  - destruct (String.eqb k' k) eqn:E; simpl.
    + now rewrite String.eqb_refl.
    + now rewrite E.
Qed.

Lemma get_set_other {A : Type} (k k0 : string) (v : A)
    (fields : list (string * A)) :
  k0 <> k -> Js.get k0 (Js.set k v fields) = Js.get k0 fields.
Proof.
  intros Hne. induction fields as [|[k' v'] rest IH]; simpl.
  - destruct (String.eqb_spec k k0); [congruence | reflexivity].
  - destruct (String.eqb_spec k' k) as [->|Hk]; simpl.
    + destruct (String.eqb_spec k k0); [congruence | reflexivity].
    + destruct (String.eqb k' k0); [reflexivity | exact IH].
Qed.

(** The page number the loop sends wins over a [page] entry the caller put
    in the query, every other entry of the query is sent as given, and two
    different pages are never asked for with the same call. *)
Theorem page_parameter_overrides (this : XeroClient) (path : string)
    (params : option (list (string * string))) (page : nat) :
  Js.get "page" (Client.with_page params page) = Some (pretty page) /\
  (forall k, k <> "page" ->
     Js.get k (Client.with_page params page) = Js.get k (default [] params)) /\
  (forall other, other <> page ->
     page_request this path params other <> page_request this path params page).
Proof.
  split; [apply get_set_same|]. split.
  - intros k Hk. now apply get_set_other.
  - intros other Hne H. apply Hne.
    apply (f_equal (fun r => Js.get "page" (Runtime.params r))) in H.
    cbn in H. unfold Client.with_page in H. rewrite !get_set_same in H.
    injection H as H. now apply (inj pretty) in H.
Qed.

(** A field name that the first page body does not have ends the call at
    once with an empty result, not an error, even when the body holds arrays
    under other names; one request has been made. *)
Theorem missing_field_yields_empty_result (P : platform) (this : XeroClient)
    (path : string) (params : option (list (string * string)))
    (k : string) (fields : list (string * json)) (fuel : nat) (w : world) :
  k <> EmptyString ->
  Client.inherited k = false ->
  page_response P this path params 1 = Returns (JObj fields) ->
  Js.get k fields = None ->
  1 <= fuel ->
  Client.getPaginated P this path params (Some k) fuel w
    = Some (Returns [], log_request (page_request this path params 1) w).
Proof.
  intros Hk Hin Hpage Hget Hfuel.
  destruct fuel as [|fuel]; [lia|].
  unfold Client.getPaginated. rewrite loop_step. unfold page_yield.
  rewrite Hpage. unfold Client.page_items.
  rewrite (non_empty_truthy k Hk). unfold Client.named_items.
  now rewrite Hget, Hin.
Qed.

Lemma missing_field_yields_empty_result_witness :
  Js.get "Invoices" (invoices_fields 3) = Some (JArr (invoices_array 3)) /\
  Client.getPaginated (serving (invoices_fields 3)) a_client "Invoices" None
    (Some "invoices") 5 just_started
    = Some (Returns [],
            log_request (page_request a_client "Invoices" None 1) just_started).
Proof.
  split; [reflexivity|].
  apply (missing_field_yields_empty_result (serving (invoices_fields 3))
           a_client "Invoices" None "invoices" (invoices_fields 3) 5
           just_started);
    [discriminate | reflexivity | reflexivity | reflexivity | lia].
Defined.

(** Over a run of full pages the loop only moves on. *)
Lemma loop_skip_full (P : platform) this path params responseKey
    (full : list (list json)) :
  Forall (fun a => Client.XERO_PAGE_SIZE <= length a) full ->
  forall page acc w rest,
    (forall i a, full !! i = Some a ->
       page_yield P this path params responseKey (page + i)
         = Client.array_items a) ->
    Client.getPaginated_loop P this path params responseKey
      (length full + rest) page acc w
    = Client.getPaginated_loop P this path params responseKey rest
        (page + length full) (acc ++ concat full)
        (log_requests
           (map (page_request this path params) (seq page (length full))) w).
Proof.
  induction 1 as [|a full Ha Hfull IH]; intros page acc w rest Hpages.
  - simpl. now rewrite Nat.add_0_r, app_nil_r, log_requests_nil.
  - cbn [length Nat.add]. rewrite loop_step. cbv zeta.
    rewrite <- (Nat.add_0_r page) at 1. rewrite (Hpages 0 a eq_refl).
    destruct a as [|x a]; [unfold Client.XERO_PAGE_SIZE in Ha; simpl in Ha; lia|].
    unfold Client.array_items.
    replace (Client.XERO_PAGE_SIZE <=? length (x :: a)) with true
      by (symmetry; apply Nat.leb_le; exact Ha).
    rewrite IH.
    + rewrite log_requests_cons. cbn [concat seq map].
      rewrite <- app_assoc. now rewrite Nat.add_succ_r.
    + intros i b Hb. replace (S page + i) with (page + S i) by lia.
      apply Hpages. exact Hb.
Qed.

(** A page that fails ends the whole call with its error: the items of the
    full pages read before it are not returned. *)
Theorem failed_page_discards_items (P : platform) (this : XeroClient)
    (path : string) (params : option (list (string * string)))
    (responseKey : option string) (full : list (list json)) (e : exn)
    (fuel : nat) (w : world) :
  (forall i a, full !! i = Some a ->
     page_yield P this path params responseKey (S i) = Client.array_items a) ->
  Forall (fun a => Client.XERO_PAGE_SIZE <= length a) full ->
  page_yield P this path params responseKey (S (length full)) = Fails e ->
  length full < fuel ->
  Client.getPaginated P this path params responseKey fuel w
    = Some (Throws e,
            log_requests
              (map (page_request this path params) (seq 1 (S (length full))))
              w).
Proof.
  intros Hpages Hfull Hfail Hfuel. unfold Client.getPaginated.
  replace fuel with (length full + S (fuel - length full - 1)) by lia.
  rewrite (loop_skip_full P this path params responseKey full Hfull);
    [|intros i a Ha; now apply Hpages].
  rewrite loop_step. cbv zeta. change (1 + length full) with (S (length full)).
  rewrite Hfail, seq_S, map_app.
  unfold log_requests, log_request. cbn [state _client env requests map].
  now rewrite app_assoc.
Qed.

Lemma failed_page_discards_items_witness :
  Client.getPaginated (paged_then [100; 100] 503 "try later") a_client
    "Invoices" None (Some "Invoices") 7 just_started
    = Some (Throws (Error "Xero API error GET /Invoices (503): try later"),
            log_requests
              (map (page_request a_client "Invoices" None) (seq 1 3))
              just_started).
Proof.
  apply (failed_page_discards_items (paged_then [100; 100] 503 "try later")
           a_client "Invoices" None (Some "Invoices")
           [invoices_array 100; invoices_array 100]
           (Error "Xero API error GET /Invoices (503): try later")
           7 just_started).
  - intros [|[|i]] a H; simpl in H; try discriminate;
      injection H as <-; vm_compute; reflexivity.
  - repeat constructor; apply Nat.leb_le; vm_compute; reflexivity.
  - vm_compute; reflexivity.
  - simpl; lia.
Defined.

Lemma loop_runs_on (P : platform) this path params responseKey :
  (forall page, 1 <= page ->
     exists items n,
       page_yield P this path params responseKey page = Items items n /\
       Client.XERO_PAGE_SIZE <= n) ->
  forall fuel page acc w,
    1 <= page ->
    Client.getPaginated_loop P this path params responseKey fuel page acc w
      = None.
Proof.
  intros Hfull. induction fuel as [|fuel IH]; intros page acc w Hpage;
    [reflexivity|].
  rewrite loop_step. cbv zeta.
  destruct (Hfull page Hpage) as (items & n & -> & Hn).
  replace (Client.XERO_PAGE_SIZE <=? n) with true
    by (symmetry; now apply Nat.leb_le).
  apply IH. lia.
Qed.

(** The loop has no bound of its own: against a remote API whose every page
    measures 100 items or more, [getPaginated] is still running after any
    number of turns. *)
Theorem full_pages_never_end (P : platform) (this : XeroClient)
    (path : string) (params : option (list (string * string)))
    (responseKey : option string) (w : world) :
  (forall page, 1 <= page ->
     exists items n,
       page_yield P this path params responseKey page = Items items n /\
       Client.XERO_PAGE_SIZE <= n) ->
  forall fuel, Client.getPaginated P this path params responseKey fuel w = None.
Proof.
  intros Hfull fuel. unfold Client.getPaginated.
  now apply loop_runs_on.
Qed.

Lemma full_pages_never_end_witness :
  Client.getPaginated (serving (invoices_fields 100)) a_client "Invoices"
    None None 5000 just_started = None.
Proof.
  apply (full_pages_never_end (serving (invoices_fields 100)) a_client
           "Invoices" None None just_started).
  intros page _. eexists _, _. split; [reflexivity|].
  apply Nat.leb_le. vm_compute. reflexivity.
Defined.

(** ** Request envelopes *)

(** With a client cached, [xero_invoices_create] posts to [Invoices] an
    envelope holding one invoice. The invoice carries [Type] and [LineItems]
    as given (left out when not given) and the contact id wrapped in
    [Contact]; each of [Date], [DueDate], [Reference] and [Status] is carried
    only when its argument is truthy, so an empty string is not sent. *)
Theorem invoice_create_envelope (P : platform) (args : option (list (string * json)))
    (w : world) (c : XeroClient) :
  _client w = Some c ->
  let a := default [] args in
  exists invoice,
    snd (callTool P "xero_invoices_create" args w)
      = log_request
          (Client.build_request c "POST" "Invoices" None
             (Some (JObj [("Invoices", JArr [JObj invoice])]))) w /\
    Js.get "Type" invoice = Js.get "Type" a /\
    Js.get "Contact" invoice
      = Some (Js.object [("ContactID", Js.get "ContactID" a)]) /\
    Js.get "LineItems" invoice = Js.get "LineItems" a /\
    Forall (fun k => Js.get k invoice
                     = if truthy (Js.get k a) then Js.get k a else None)
      ["Date"; "DueDate"; "Reference"; "Status"].
Proof.
  intros Hc a.
  rewrite (callTool_routed P invoices "xero_invoices_create" args w eq_refl).
  cbn [snd handler_of]. fold a. unfold handleInvoiceTool.
  rewrite bind_run, (getClient_cached w c Hc).
  cbn [String.eqb Ascii.eqb Bool.eqb]. cbv zeta.
  unfold Client.post. rewrite call_then_wrap. cbn [snd].
  unfold Js.object at 1.
  eexists. split; [reflexivity|].
  rewrite !Forall_cons. cbv beta.
  generalize (Js.get "Type" a) (Js.get "ContactID" a) (Js.get "LineItems" a)
    (Js.get "Date" a) (Js.get "DueDate" a) (Js.get "Reference" a)
    (Js.get "Status" a).
  intros type contact items date due reference status.
  destruct type, contact, items;
    (destruct date as [date|]; [destruct (truthy (Some date))|]);
    (destruct due as [due|]; [destruct (truthy (Some due))|]);
    (destruct reference as [reference|];
       [destruct (truthy (Some reference))|]);
    (destruct status as [status|]; [destruct (truthy (Some status))|]);
    repeat split; apply Forall_nil_2.
Qed.

Lemma invoice_create_envelope_witness :
  let args := Some [("Type", JStr "ACCREC"); ("ContactID", JStr "c1");
                    ("LineItems", JArr []); ("Reference", JStr EmptyString)] in
  exists invoice,
    snd (callTool (paged []) "xero_invoices_create" args serving_A)
      = log_request
          (Client.build_request a_client "POST" "Invoices" None
             (Some (JObj [("Invoices", JArr [JObj invoice])]))) serving_A /\
    Js.get "Type" invoice = Some (JStr "ACCREC") /\
    Js.get "Reference" invoice = None.
Proof.
  intros args.
  destruct (invoice_create_envelope (paged []) args serving_A a_client eq_refl)
    as (invoice & Hcall & Htype & _ & _ & Hopt).
  exists invoice. split; [exact Hcall|]. split; [exact Htype|].
  apply Forall_cons in Hopt as [_ Hopt].
  apply Forall_cons in Hopt as [_ Hopt].
  apply Forall_cons in Hopt as [Href _].
  exact Href.
Defined.

(** ** The navigation invariant *)

Lemma callTool_keeps_well_formed_witness :
  well_formed
    (state (snd (callTool (always 500 "down") "xero_navigate"
                   (Some [("domain", JStr "reports")])
                   (set_state (IN_DOMAIN contacts) serving_A)))).
Proof.
  apply (callTool_keeps_well_formed (always 500 "down") "xero_navigate"
           (Some [("domain", JStr "reports")])
           (set_state (IN_DOMAIN contacts) serving_A)).
  - right. exists contacts. reflexivity.
  - intros fields _ [= <-]. exists reports. reflexivity.
Defined.
